(** * Signoz-demo: the request-observability pipeline of [app.js] and [logger.js]

    A shallow embedding of the Express application ([src/app.js]), of its
    winston logger ([src/logger.js]) and of the instrumentation hook of
    [src/tracing.js]:

    - [JS]      the JavaScript values that travel through the program (request
                bodies, log records, response bodies; numbers are whole) with
                the coercions the code relies on: truthiness, [ToString],
                [isNaN] and [< 0] (which throw on some objects), [parseInt],
                property read/write, rest-destructuring, [JSON.stringify];
    - [Logger]  [logger.js]: the level methods, the three logger formats, the
                two transports and the [prettyLog] console format;
    - [App]     [app.js]: the logging middleware with its [finish] listener,
                the five route handlers, the global error handler, the start
                of the server and its shutdown;
    - [Tracing] [tracing.js]: the [logHook] of the winston instrumentation.

    What the run-time supplies (uuids, clock readings, the active span, the
    stack text of a fault, process statistics, the colour of a level on the
    terminal) is an explicit environment record, [Logger.Ambient] and
    [App.Env]; third-party behaviour the program relies on is stated where it
    is used. *)

From Stdlib Require Import ZArith String Ascii DecimalString HexadecimalString.
From Stdlib Require Import DecimalFacts DecimalPos.
From stdpp Require Import gmap strings list.

Open Scope Z_scope.
Set Warnings "-register-all".

(* ===================================================================== *)
(** ** JavaScript values *)
(* ===================================================================== *)

Module JS.

(** Values of the JSON fragment plus [undefined].  [VNum n] is the
    integer-valued number [n]; a string is its UTF-8 byte sequence; an object
    is its list of own enumerable properties in enumeration order. *)
Inductive value : Type :=
| VUndef
| VNull
| VBool (b : bool)
| VNum (n : Z)
| VStr (s : string)
| VArr (xs : list value)
| VObj (fields : list (string * value)).

Definition obj : Type := list (string * value).

Definition LF : string := String (ascii_of_nat 10) EmptyString.

Fixpoint join (sep : string) (parts : list string) : string :=
  match parts with
  | [] => EmptyString
  | [p] => p
  | p :: rest => p +:+ sep +:+ join sep rest
  end.

(** [Number.prototype.toString()] on an integer. *)
Definition number_to_string (n : Z) : string :=
  DecimalString.NilZero.string_of_int (Z.to_int n).

(** [Number.prototype.toString(16)] on an integer. *)
Definition toString16 (n : Z) : string :=
  let digits := HexadecimalString.NilZero.string_of_uint (N.to_hex_uint (Z.abs_N n)) in
  if n <? 0 then "-" +:+ digits else digits.

(** [ToBoolean]. *)
Definition truthy (v : value) : bool :=
  match v with
  | VUndef | VNull => false
  | VBool b => b
  | VNum n => negb (n =? 0)
  | VStr s => negb (String.eqb s EmptyString)
  | VArr _ | VObj _ => true
  end.

(** [ToString]: arrays through [Array.prototype.join], where [null] and
    [undefined] elements give the empty string; plain objects through
    [Object.prototype.toString]. *)
Fixpoint ToString (v : value) : string :=
  match v with
  | VUndef => "undefined"
  | VNull => "null"
  | VBool true => "true"
  | VBool false => "false"
  | VNum n => number_to_string n
  | VStr s => s
  | VArr xs =>
      join ","
        ((fix elems (l : list value) : list string :=
            match l with
            | [] => []
            | VUndef :: r | VNull :: r => EmptyString :: elems r
            | x :: r => ToString x :: elems r
            end) xs)
  | VObj _ => "[object Object]"
  end.

(** *** [ToNumber], up to the sign of the result

    [isNaN(x)] and [x < 0] only look at whether [ToNumber(x)] is [NaN],
    negative, a zero or positive. *)
Inductive numsign : Type := SNaN | SNeg | SZero | SPos.

Definition codes (s : string) : list N :=
  map N_of_ascii (list_ascii_of_string s).

(** Leading [StrWhiteSpaceChar]s: TAB, LF, VT, FF, CR, SP, and in UTF-8
    U+00A0, U+1680, U+2000..U+200A, U+2028, U+2029, U+202F, U+205F, U+3000,
    U+FEFF. *)
Fixpoint skip_ws (l : list N) : list N :=
  match l with
  | (9 | 10 | 11 | 12 | 13 | 32)%N :: r => skip_ws r
  | 194%N :: 160%N :: r => skip_ws r
  | 225%N :: 154%N :: 128%N :: r => skip_ws r
  | 226%N :: 128%N :: c :: r =>
      if ((128 <=? c) && (c <=? 138) || (c =? 168) || (c =? 169) || (c =? 175))%N
      then skip_ws r else l
  | 226%N :: 129%N :: 159%N :: r => skip_ws r
  | 227%N :: 128%N :: 128%N :: r => skip_ws r
  | 239%N :: 187%N :: 191%N :: r => skip_ws r
  | _ => l
  end.

Definition all_ws (l : list N) : bool :=
  match skip_ws l with [] => true | _ => false end.

(** The value of a digit in the given radix, if it is one. *)
Definition digit_value (radix c : N) : option N :=
  let d :=
    if ((48 <=? c) && (c <=? 57))%N then Some (c - 48)%N
    else if ((97 <=? c) && (c <=? 102))%N then Some (c - 87)%N
    else if ((65 <=? c) && (c <=? 70))%N then Some (c - 55)%N
    else None in
  match d with
  | Some x => if (x <? radix)%N then Some x else None
  | None => None
  end.

(** The longest run of digits at the front: how many there are, the number
    they spell (after [acc]), and what follows. *)
Fixpoint take_digits (radix : N) (acc : N) (l : list N) : nat * N * list N :=
  match l with
  | c :: r =>
      match digit_value radix c with
      | Some d =>
          let '(k, n, rest) := take_digits radix (acc * radix + d)%N r in
          (S k, n, rest)
      | None => (O, acc, l)
      end
  | [] => (O, acc, [])
  end.

Fixpoint strip_prefix (p l : list N) : option (list N) :=
  match p, l with
  | [], _ => Some l
  | a :: p', b :: l' => if (a =? b)%N then strip_prefix p' l' else None
  | _ :: _, [] => None
  end.

(** [m * 10^e], [m > 0], rounds to a zero in binary64 exactly when it is at
    most [2^-1075], half of the least subnormal (ties go to even). *)
Definition underflows (m : N) (e : Z) : bool :=
  (e <? 0) && (Z.of_N m * 2 ^ 1075 <=? 10 ^ (- e)).

Definition magnitude (m : N) (e : Z) : numsign :=
  if (m =? 0)%N then SZero else if underflows m e then SZero else SPos.

(** [ExponentPart_opt]: the exponent and what follows; without digits after
    the [e] there is no exponent part and nothing is consumed. *)
Definition take_exponent (l : list N) : Z * list N :=
  match l with
  | (101 | 69)%N :: r =>
      let '(neg, r') :=
        match r with
        | 45%N :: r' => (true, r')
        | 43%N :: r' => (false, r')
        | _ => (false, r)
        end in
      let '(k, n, rest) := take_digits 10 0 r' in
      match k with
      | O => (0, l)
      | S _ => (if neg then - Z.of_N n else Z.of_N n, rest)
      end
  | _ => (0, l)
  end.

(** [StrUnsignedDecimalLiteral]. *)
Definition unsigned_decimal (l : list N) : option (numsign * list N) :=
  match strip_prefix (codes "Infinity") l with
  | Some rest => Some (SPos, rest)
  | None =>
      let '(ki, ni, r1) := take_digits 10 0 l in
      match r1 with
      | 46%N :: r2 =>
          let '(kf, m, r3) := take_digits 10 ni r2 in
          match ki, kf with
          | O, O => None
          | _, _ =>
              let '(e, rest) := take_exponent r3 in
              Some (magnitude m (e - Z.of_nat kf), rest)
          end
      | _ =>
          match ki with
          | O => None
          | S _ =>
              let '(e, rest) := take_exponent r1 in
              Some (magnitude ni e, rest)
          end
      end
  end.

(** [NonDecimalIntegerLiteral]: [0x], [0o], [0b] with at least one digit. *)
Definition non_decimal (l : list N) : option (numsign * list N) :=
  match l with
  | 48%N :: p :: r =>
      let radix :=
        match p with
        | (120 | 88)%N => Some 16%N
        | (111 | 79)%N => Some 8%N
        | (98 | 66)%N => Some 2%N
        | _ => None
        end in
      match radix with
      | Some b =>
          let '(k, n, rest) := take_digits b 0 r in
          match k with
          | O => None
          | S _ => Some (if (n =? 0)%N then SZero else SPos, rest)
          end
      | None => None
      end
  | _ => None
  end.

(** [StrNumericLiteral]. *)
Definition numeric_literal (l : list N) : option (numsign * list N) :=
  match non_decimal l with
  | Some r => Some r
  | None =>
      match l with
      | 45%N :: r =>
          match unsigned_decimal r with
          | Some (SPos, rest) => Some (SNeg, rest)
          | other => other
          end
      | 43%N :: r => unsigned_decimal r
      | _ => unsigned_decimal l
      end
  end.

(** [StringToNumber]: white space, then nothing (zero) or one literal, then
    white space to the end; anything else is [NaN]. *)
Definition StringToNumber (s : string) : numsign :=
  match skip_ws (codes s) with
  | [] => SZero
  | l =>
      match numeric_literal l with
      | Some (c, rest) => if all_ws rest then c else SNaN
      | None => SNaN
      end
  end.

(** [ToPrimitive] raises a [TypeError] on an object whose own [toString]
    property hides the inherited method (no parsed JSON value is callable, and
    the inherited [valueOf] only gives the object back), and on an array
    whose [join] has to print such an object. *)
Fixpoint unprintable (v : value) : bool :=
  match v with
  | VObj fs => existsb (fun kv => String.eqb (fst kv) "toString") fs
  | VArr xs =>
      (fix any (l : list value) : bool :=
         match l with
         | [] => false
         | x :: r => unprintable x || any r
         end) xs
  | _ => false
  end.

(** [ToNumber], as the sign of the number; [None] when [ToPrimitive]
    throws. *)
Definition ToNumber (v : value) : option numsign :=
  match v with
  | VUndef => Some SNaN
  | VNull => Some SZero
  | VBool b => Some (if b then SPos else SZero)
  | VNum n => Some (if n <? 0 then SNeg else if n =? 0 then SZero else SPos)
  | VStr s => Some (StringToNumber s)
  | VArr _ | VObj _ =>
      if unprintable v then None else Some (StringToNumber (ToString v))
  end.

(** The global [isNaN(x)]; [None] when the coercion throws. *)
Definition isNaN (v : value) : option bool :=
  match ToNumber v with
  | Some SNaN => Some true
  | Some _ => Some false
  | None => None
  end.

(** [x < 0]; [None] when the coercion throws. *)
Definition ltZero (v : value) : option bool :=
  match ToNumber v with
  | Some SNeg => Some true
  | Some _ => Some false
  | None => None
  end.

(** *** Properties *)

Fixpoint lookup_prop (k : string) (o : obj) : option value :=
  match o with
  | [] => None
  | (k', v) :: rest => if String.eqb k k' then Some v else lookup_prop k rest
  end.

(** [o.k]: a missing property reads as [undefined]. *)
Definition prop (k : string) (o : obj) : value :=
  match lookup_prop k o with Some v => v | None => VUndef end.

(** [o.k = v]: an existing property keeps its place, a new one goes last. *)
Fixpoint set_prop (k : string) (v : value) (o : obj) : obj :=
  match o with
  | [] => [(k, v)]
  | (k', v') :: rest =>
      if String.eqb k k' then (k, v) :: rest else (k', v') :: set_prop k v rest
  end.

Definition has_key (ks : list string) (k : string) : bool :=
  existsb (String.eqb k) ks.

(** [const { k1, ..., kn, ...rest } = o]: the properties not named. *)
Definition rest_without (ks : list string) (o : obj) : obj :=
  List.filter (fun kv => negb (has_key ks (fst kv))) o.

(** *** [JSON.stringify(v, null, 2)] *)

Definition hex_digit (n : N) : string :=
  HexadecimalString.NilZero.string_of_uint (N.to_hex_uint n).

(** One character of [QuoteJSONString]. *)
Definition backslash : string := String (ascii_of_nat 92) EmptyString.

Definition quote_char (c : ascii) : string :=
  let n := N_of_ascii c in
  if (n =? 8)%N then backslash +:+ "b"
  else if (n =? 9)%N then backslash +:+ "t"
  else if (n =? 10)%N then backslash +:+ "n"
  else if (n =? 12)%N then backslash +:+ "f"
  else if (n =? 13)%N then backslash +:+ "r"
  else if (n =? 34)%N then backslash +:+ String c EmptyString
  else if (n =? 92)%N then backslash +:+ backslash
  else if (n <? 32)%N
  then backslash +:+ "u00" +:+ hex_digit (n / 16) +:+ hex_digit (n mod 16)
  else String c EmptyString.

Fixpoint quote_body (s : string) : string :=
  match s with
  | EmptyString => EmptyString
  | String c r => quote_char c +:+ quote_body r
  end.

Definition dquote : string := String (ascii_of_nat 34) EmptyString.

Definition quote (s : string) : string := dquote +:+ quote_body s +:+ dquote.

Definition gap : string := "  ".

(** [SerializeJSONProperty] with the two-space gap; [None] is the
    [undefined] result, which drops a property and prints [null] in an
    array. *)
Fixpoint serialize (indent : string) (v : value) : option string :=
  match v with
  | VUndef => None
  | VNull => Some "null"
  | VBool true => Some "true"
  | VBool false => Some "false"
  | VNum n => Some (number_to_string n)
  | VStr s => Some (quote s)
  | VArr xs =>
      let stepback := indent in
      let indent := indent +:+ gap in
      let partial :=
        (fix elems (l : list value) : list string :=
           match l with
           | [] => []
           | x :: r =>
               match serialize indent x with
               | Some s => s :: elems r
               | None => "null" :: elems r
               end
           end) xs in
      match partial with
      | [] => Some "[]"
      | _ =>
          Some ("[" +:+ LF +:+ indent +:+ join ("," +:+ LF +:+ indent) partial
                +:+ LF +:+ stepback +:+ "]")
      end
  | VObj fs =>
      let stepback := indent in
      let indent := indent +:+ gap in
      let partial :=
        (fix members (l : list (string * value)) : list string :=
           match l with
           | [] => []
           | (k, x) :: r =>
               match serialize indent x with
               | Some s => (quote k +:+ ": " +:+ s) :: members r
               | None => members r
               end
           end) fs in
      match partial with
      | [] => Some "{}"
      | _ =>
          Some ("{" +:+ LF +:+ indent +:+ join ("," +:+ LF +:+ indent) partial
                +:+ LF +:+ stepback +:+ "}")
      end
  end.

Definition stringify2 (v : value) : string :=
  match serialize EmptyString v with Some s => s | None => "undefined" end.

(** [s.replace(/\n/g, r)]. *)
Fixpoint replace_newlines (r : string) (s : string) : string :=
  match s with
  | EmptyString => EmptyString
  | String c rest =>
      if (N_of_ascii c =? 10)%N then r +:+ replace_newlines r rest
      else String c (replace_newlines r rest)
  end.

(** [parseInt(s, 10)]: leading white space, an optional sign, then the
    longest run of decimal digits; [None] is [NaN].  The value is exact for
    numerals below [2^53]. *)
Definition parseInt10 (s : string) : option Z :=
  let l := skip_ws (codes s) in
  let '(neg, l) :=
    match l with
    | 45%N :: r => (true, r)
    | 43%N :: r => (false, r)
    | _ => (false, l)
    end in
  let '(k, n, _) := take_digits 10 0 l in
  match k with
  | O => None
  | S _ => Some (if neg then - Z.of_N n else Z.of_N n)
  end.


End JS.

(* ===================================================================== *)
(** ** logger.js *)
(* ===================================================================== *)

Module Logger.
Import JS.

(** winston's npm levels, most severe first. *)
Inductive level : Type := Error | Warn | Info | Http | Verbose | Debug | Silly.

Definition level_name (l : level) : string :=
  match l with
  | Error => "error"
  | Warn => "warn"
  | Info => "info"
  | Http => "http"
  | Verbose => "verbose"
  | Debug => "debug"
  | Silly => "silly"
  end.

Definition level_rank (l : level) : Z :=
  match l with
  | Error => 0
  | Warn => 1
  | Info => 2
  | Http => 3
  | Verbose => 4
  | Debug => 5
  | Silly => 6
  end.

(** [level: 'debug'] *)
Definition logger_level : level := Debug.

Definition enabled (l : level) : bool := level_rank l <=? level_rank logger_level.

(** [span.spanContext()] *)
Record SpanContext : Type := {
  traceId : string;
  spanId : string;
  traceFlags : Z
}.

(** What the process supplies at the moment of one emission:
    [trace.getActiveSpan()], the time as [format.timestamp] prints it
    ([YYYY-MM-DD HH:mm:ss]), and how the terminal shows a level name
    ([format.colorize], which leaves the name alone without colour support). *)
Record Ambient : Type := {
  active_span : option SpanContext;
  clock : string;
  paint : string -> string
}.

(** [defaultMeta] *)
Definition defaultMeta : obj := [("service", VStr "nodejs-signoz-service")].

(** [logger.<level>(msg)] with a single argument: the argument itself becomes
    the record when it has a truthy [message], it is given its level, and
    [defaultMeta] is assigned onto it. *)
Definition level_method (l : level) (msg : obj) : obj :=
  let info := if truthy (prop "message" msg) then msg else [("message", VObj msg)] in
  let info := set_prop "level" (VStr (level_name l)) info in
  fold_left (fun o kv => set_prop (fst kv) (snd kv) o) defaultMeta info.

(** The first logger format: the identifiers of the active span, if any. *)
Definition traceFormat (a : Ambient) (info : obj) : obj :=
  match active_span a with
  | Some spanContext =>
      let info := set_prop "trace_id" (VStr (traceId spanContext)) info in
      let info := set_prop "span_id" (VStr (spanId spanContext)) info in
      set_prop "trace_flags" (VStr (toString16 (traceFlags spanContext))) info
  | None => info
  end.

(** [winston.format.timestamp({ format: 'YYYY-MM-DD HH:mm:ss' })] *)
Definition timestampFormat (a : Ambient) (info : obj) : obj :=
  set_prop "timestamp" (VStr (clock a)) info.

(** [winston.format.errors({ stack: true })]: a record that is not an [Error]
    passes unchanged. *)
Definition errorsFormat (info : obj) : obj := info.

(** [format.combine] of the three, in order. *)
Definition loggerFormat (a : Ambient) (info : obj) : obj :=
  errorsFormat (timestampFormat a (traceFormat a info)).

(** [winston.format.colorize()] *)
Definition colorizeFormat (a : Ambient) (l : level) (info : obj) : obj :=
  set_prop "level" (VStr (paint a (level_name l))) info.

(** The attributes [prettyLog] prints: what the two destructurings leave. *)
Definition cleanMeta (info : obj) : obj :=
  let meta := rest_without ["level"; "message"; "timestamp"; "event"] info in
  rest_without ["trace_id"; "span_id"; "trace_flags"; "service"; "timestamp"] meta.

(** [prettyLog] *)
Definition prettyLog (info : obj) : string :=
  let level := prop "level" info in
  let message := prop "message" info in
  let timestamp := prop "timestamp" info in
  let event := prop "event" info in
  let clean := cleanMeta info in
  let metaString :=
    if (0 <? Z.of_nat (length clean))
    then LF +:+ "  " +:+ replace_newlines (LF +:+ "  ") (stringify2 (VObj clean))
    else EmptyString in
  ToString timestamp +:+ " [" +:+ ToString level +:+ "] " +:+ ToString event
    +:+ ": " +:+ ToString message +:+ metaString.

(** The console transport's own format, on its copy of the record. *)
Definition consoleFormat (a : Ambient) (l : level) (info : obj) : string :=
  prettyLog (colorizeFormat a l info).

(** The two transports: the records handed to [OpenTelemetryTransportV3], and
    the texts the console transport writes (each followed by an end of
    line). *)
Record Sinks : Type := {
  otlp : list obj;
  stdout : list string
}.

(** One call of a level method: the record goes through the logger's format
    ([record]) and then to both transports, each of which lets it pass when
    its level is enabled. *)
Definition record (a : Ambient) (l : level) (msg : obj) : obj :=
  loggerFormat a (level_method l msg).

Definition log (a : Ambient) (l : level) (msg : obj) (s : Sinks) : Sinks :=
  let info := record a l msg in
  {| otlp := if enabled l then otlp s ++ [info] else otlp s;
     stdout := if enabled l then stdout s ++ [consoleFormat a l info] else stdout s |}.

End Logger.

(* ===================================================================== *)
(** ** app.js *)
(* ===================================================================== *)

Module App.
Import JS.

(** A thrown [Error]. *)
Record Fault : Type := {
  name : string;
  message : string;
  stack : string
}.

(** What [express.json()] makes of the request body: [req.body], or the fault
    it passes to [next] for a body that is not JSON. *)
Inductive Payload : Type :=
| Parsed (body : value)
| Malformed (err : Fault).

(** The route the router selects. *)
Inductive Target : Type :=
| PostUsers
| PostPosts
| PerformanceTest (scenario : string)
| SimulateError (type : string)
| Health.

Record Request : Type := {
  method : string;
  path : string;
  ip : value;
  userAgent : value;
  headers : value;
  query : value;
  payload : Payload;
  target : Target;
  requestId : value
}.

Record Response : Type := {
  statusCode : Z;
  body : value
}.

(** How a handler leaves the request: a response was sent, a fault escaped,
    or it returned without either. *)
Inductive Outcome : Type :=
| Responded (res : Response)
| Threw (err : Fault)
| Pending.

(** The two in-memory maps and the logger's transports. *)
Record World : Type := {
  users : gmap string value;
  posts : gmap string value;
  sinks : Logger.Sinks
}.

(** What the run-time supplies while one request is served.  [ambient k] and
    [iso k] are read while [k] records have been emitted so far. *)
Record Env : Type := {
  ambient : nat -> Logger.Ambient;
  iso : nat -> string;               (* new Date().toISOString() *)
  uuid_request : string;             (* uuidv4(), line 14 *)
  uuid_entity : string;              (* uuidv4(), lines 75 and 115 *)
  now_start : Z;                     (* Date.now(), line 16 *)
  now_finish : Z;                    (* Date.now(), line 34 *)
  now_perf_start : Z;                (* Date.now(), line 149 *)
  now_perf_end : Z;                  (* Date.now(), lines 188 and 211 *)
  stack_of : string -> string -> string; (* error.stack, from name and message *)
  process_uptime : value;
  process_memory : value;
  process_cpu : value
}.

Definition emitted_so_far (w : World) : nat := length (Logger.otlp (sinks w)).

Definition emit (e : Env) (l : Logger.level) (msg : obj) (w : World) : World :=
  {| users := users w;
     posts := posts w;
     sinks := Logger.log (ambient e (emitted_so_far w)) l msg (sinks w) |}.

Definition isoNow (e : Env) (w : World) : string := iso e (emitted_so_far w).

Definition mkFault (e : Env) (nm msg : string) : Fault :=
  {| name := nm; message := msg; stack := stack_of e nm msg |}.

Definition respond (status : Z) (b : value) : Outcome :=
  Responded {| statusCode := status; body := b |}.

(** [`${n}ms`] *)
Definition ms (n : Z) : value := VStr (number_to_string n +:+ "ms").

(** *** The request logging middleware (lines 13-48) *)

(** What the [finish] listener keeps from the middleware's scope. *)
Record Listener : Type := {
  l_requestId : string;
  l_startTime : Z
}.

Definition with_requestId (rid : value) (req : Request) : Request :=
  {| method := method req; path := path req; ip := ip req;
     userAgent := userAgent req; headers := headers req; query := query req;
     payload := payload req; target := target req; requestId := rid |}.

(** [req.body] is still [undefined] here: [express.json()] is registered
    after this middleware. *)
Definition loggingMiddleware (e : Env) (req : Request) (w : World)
  : Request * Listener * World :=
  let requestId := uuid_request e in
  let req := with_requestId (VStr requestId) req in
  let startTime := now_start e in
  let w := emit e Logger.Info
    [("event", VStr "REQUEST_RECEIVED");
     ("message", VStr "🌟 New incoming request");
     ("method", VStr (method req));
     ("path", VStr (path req));
     ("requestId", VStr requestId);
     ("ipAddress", ip req);
     ("userAgent", userAgent req);
     ("headers", headers req);
     ("query", query req);
     ("body", VUndef);
     ("timestamp", VStr (isoNow e w))] w in
  (req, {| l_requestId := requestId; l_startTime := startTime |}, w).

(** [res.on('finish', ...)] *)
Definition onFinish (e : Env) (req : Request) (l : Listener) (res : Response)
    (w : World) : World :=
  let duration := now_finish e - l_startTime l in
  emit e Logger.Info
    [("event", VStr "REQUEST_COMPLETED");
     ("message", VStr "✅ Request processed");
     ("method", VStr (method req));
     ("path", VStr (path req));
     ("requestId", VStr (l_requestId l));
     ("statusCode", VNum (statusCode res));
     ("duration", ms duration);
     ("timestamp", VStr (isoNow e w))] w.

(** *** Reading the body *)

(** [const { k, ... } = b] throws a [TypeError] on [undefined] and [null]. *)
Definition destructure (e : Env) (first : string) (b : value) : option Fault :=
  match b with
  | VUndef | VNull =>
      Some (mkFault e "TypeError"
              ("Cannot destructure property '" +:+ first +:+ "' of 'req.body' as it is "
               +:+ ToString b +:+ "."))
  | _ => None
  end.

(** The property [k] of a body that can be destructured; the names read by
    the handlers are own properties of objects only. *)
Definition field (k : string) (b : value) : value :=
  match b with
  | VObj fs => prop k fs
  | _ => VUndef
  end.

(** *** POST /users (lines 54-98) *)

(** The condition of line 62, [age && (isNaN(age) || age < 0)], as a truth
    value: a falsy [age] is not coerced at all; [None] when the coercion of a
    truthy one throws. *)
Definition invalidAge (age : value) : option bool :=
  if truthy age then
    match isNaN age with
    | Some true => Some true
    | Some false => ltZero age
    | None => None
    end
  else Some false.

(** Lines 59-62: the messages pushed, or [None] when the age check throws. *)
Definition validate (username email age : value) : option (list string) :=
  let errors := [] in
  let errors := if negb (truthy username) then errors ++ ["Username is required"] else errors in
  let errors := if negb (truthy email) then errors ++ ["Email is required"] else errors in
  match invalidAge age with
  | Some true => Some (errors ++ ["Invalid age"])
  | Some false => Some errors
  | None => None
  end.

Definition postUsers (e : Env) (req : Request) (b : value) (w : World)
  : World * Outcome :=
  let caught (error : Fault) :=
    let w := emit e Logger.Error
      [("event", VStr "USER_CREATION_ERROR");
       ("message", VStr "❌ Error creating user");
       ("requestId", requestId req);
       ("error", VStr (message error));
       ("stack", VStr (stack error))] w in
    (w, respond 500 (VObj [("error", VStr "Failed to create user")])) in
  match destructure e "username" b with
  | Some error => caught error
  | None =>
      let username := field "username" b in
      let email := field "email" b in
      let age := field "age" b in
      match validate username email age with
      | None =>
          caught (mkFault e "TypeError" "Cannot convert object to primitive value")
      | Some found =>
          let errors := VArr (map VStr found) in
          if (0 <? Z.of_nat (length found))
          then
            let w := emit e Logger.Warn
              [("event", VStr "VALIDATION_FAILED");
               ("message", VStr "⚠️ User creation validation failed");
               ("requestId", requestId req);
               ("errors", errors);
               ("userData",
                VObj [("username", username); ("email", email); ("age", age)])] w in
            (w, respond 400 (VObj [("errors", errors)]))
          else
            let userId := uuid_entity e in
            let user :=
              VObj [("id", VStr userId); ("username", username); ("email", email);
                    ("age", age); ("createdAt", VStr (isoNow e w))] in
            let w := {| users := <[userId := user]> (users w);
                        posts := posts w; sinks := sinks w |} in
            let w := emit e Logger.Info
              [("event", VStr "USER_CREATED");
               ("message", VStr "👤 New user created successfully");
               ("requestId", requestId req);
               ("userId", VStr userId);
               ("username", username)] w in
            (w, respond 201 user)
      end
  end.

(** *** POST /posts (lines 101-145) *)

(** [users.has(k)]: the keys of the map are strings. *)
Definition has (m : gmap string value) (k : value) : bool :=
  match k with
  | VStr s => bool_decide (is_Some (m !! s))
  | _ => false
  end.

Definition postPosts (e : Env) (req : Request) (b : value) (w : World)
  : World * Outcome :=
  match destructure e "userId" b with
  | Some error =>
      let w := emit e Logger.Error
        [("event", VStr "POST_CREATION_ERROR");
         ("message", VStr "❌ Error creating post");
         ("requestId", requestId req);
         ("error", VStr (message error));
         ("stack", VStr (stack error))] w in
      (w, respond 500 (VObj [("error", VStr "Failed to create post")]))
  | None =>
      let userId := field "userId" b in
      let title := field "title" b in
      let content := field "content" b in
      if negb (has (users w) userId)
      then
        let w := emit e Logger.Warn
          [("event", VStr "POST_CREATION_FAILED");
           ("message", VStr "⚠️ Post creation failed - User not found");
           ("requestId", requestId req);
           ("userId", userId)] w in
        (w, respond 404 (VObj [("error", VStr "User not found")]))
      else
        let postId := uuid_entity e in
        let post :=
          VObj [("id", VStr postId); ("userId", userId); ("title", title);
                ("content", content); ("createdAt", VStr (isoNow e w));
                ("likes", VNum 0)] in
        let w := {| users := users w;
                    posts := <[postId := post]> (posts w); sinks := sinks w |} in
        let w := emit e Logger.Info
          [("event", VStr "POST_CREATED");
           ("message", VStr "📝 New post created");
           ("requestId", requestId req);
           ("postId", VStr postId);
           ("userId", userId)] w in
        (w, respond 201 post)
  end.

(** *** GET /performance-test/:scenario (lines 148-215) *)

(** The [switch] inside the [try]: the three known scenarios only spend time
    or memory, any other one throws. *)
Definition runScenario (e : Env) (scenario : string) : option Fault :=
  if String.eqb scenario "cpu-intensive" then None
  else if String.eqb scenario "memory-intensive" then None
  else if String.eqb scenario "async-operations" then None
  else Some (mkFault e "Error" "Invalid scenario").

Definition performanceTest (e : Env) (req : Request) (scenario : string) (w : World)
  : World * Outcome :=
  let startTime := now_perf_start e in
  let w := emit e Logger.Info
    [("event", VStr "PERFORMANCE_TEST_STARTED");
     ("message", VStr "🚀 Starting performance test");
     ("requestId", requestId req);
     ("scenario", VStr scenario);
     ("startTime", VStr (isoNow e w))] w in
  match runScenario e scenario with
  | None =>
      let duration := now_perf_end e - startTime in
      let w := emit e Logger.Info
        [("event", VStr "PERFORMANCE_TEST_COMPLETED");
         ("message", VStr "✅ Performance test completed");
         ("requestId", requestId req);
         ("scenario", VStr scenario);
         ("duration", ms duration);
         ("endTime", VStr (isoNow e w))] w in
      (w, respond 200 (VObj [("scenario", VStr scenario);
                             ("duration", ms duration);
                             ("result", VStr "Success")]))
  | Some error =>
      let w := emit e Logger.Error
        [("event", VStr "PERFORMANCE_TEST_FAILED");
         ("message", VStr "❌ Performance test failed");
         ("requestId", requestId req);
         ("scenario", VStr scenario);
         ("error", VStr (message error));
         ("duration", ms (now_perf_end e - startTime))] w in
      (w, respond 500 (VObj [("error", VStr "Performance test failed")]))
  end.

(** *** GET /simulate-error/:type (lines 218-268) *)

(** The [switch] inside the [try]: what it throws, if anything.  The first
    three faults are raised by the engine (reading an undeclared variable,
    calling [split] on a number, [eval] of an unfinished block), with the
    engine's wording. *)
Definition simulate (e : Env) (errorType : string) : option Fault :=
  if String.eqb errorType "reference"
  then Some (mkFault e "ReferenceError" "nonExistentVariable is not defined")
  else if String.eqb errorType "type"
  then Some (mkFault e "TypeError" "num.split is not a function")
  else if String.eqb errorType "syntax"
  then Some (mkFault e "SyntaxError" "Unexpected end of input")
  else if String.eqb errorType "custom"
  then Some (mkFault e "Error" "Custom application error")
  else Some (mkFault e "Error" "Unknown error type").

Definition simulateError (e : Env) (req : Request) (errorType : string) (w : World)
  : World * Outcome :=
  let w := emit e Logger.Info
    [("event", VStr "ERROR_SIMULATION_STARTED");
     ("message", VStr "🔄 Starting error simulation");
     ("requestId", requestId req);
     ("errorType", VStr errorType)] w in
  match simulate e errorType with
  | Some error =>
      let w := emit e Logger.Error
        [("event", VStr "ERROR_SIMULATION_TRIGGERED");
         ("message", VStr "💥 Simulated error occurred");
         ("requestId", requestId req);
         ("errorType", VStr errorType);
         ("error", VStr (message error));
         ("stack", VStr (stack error));
         ("timestamp", VStr (isoNow e w))] w in
      (w, respond 500 (VObj [("error", VStr "Simulated error");
                             ("type", VStr errorType);
                             ("message", VStr (message error))]))
  | None => (w, Pending)
  end.

(** *** GET /health (lines 271-287) *)

Definition healthCheck (e : Env) (req : Request) (w : World) : World * Outcome :=
  let health :=
    VObj [("uptime", process_uptime e);
          ("timestamp", VStr (isoNow e w));
          ("memory", process_memory e);
          ("cpu", process_cpu e)] in
  let w := emit e Logger.Info
    [("event", VStr "HEALTH_CHECK");
     ("message", VStr "💓 Health check performed");
     ("requestId", requestId req);
     ("health", health)] w in
  (w, respond 200 health).

(** *** The global error handler (lines 290-307) *)

(** [req.requestId || 'unknown'] *)
Definition requestId_or_unknown (req : Request) : value :=
  if truthy (requestId req) then requestId req else VStr "unknown".

Definition globalErrorHandler (e : Env) (req : Request) (err : Fault) (w : World)
  : World * Outcome :=
  let w := emit e Logger.Error
    [("event", VStr "UNHANDLED_ERROR");
     ("message", VStr "🚨 Unhandled application error");
     ("requestId", requestId_or_unknown req);
     ("error", VStr (message err));
     ("stack", VStr (stack err));
     ("path", VStr (path req));
     ("method", VStr (method req));
     ("timestamp", VStr (isoNow e w))] w in
  (w, respond 500 (VObj [("error", VStr "Internal Server Error");
                         ("requestId", requestId_or_unknown req);
                         ("message", VStr (message err))])).

(** *** Start and shutdown (lines 5, 310-338) *)

(** What the process was started with: [process.env.PORT],
    [process.env.NODE_ENV] (a string, or [undefined] when unset),
    [process.version] and [process.memoryUsage()]. *)
Record Process : Type := {
  env_PORT : value;
  env_NODE_ENV : value;
  version : string;
  memoryUsage : value
}.

(** [process.env.PORT || "5555"] *)
Definition PORT (p : Process) : value :=
  if truthy (env_PORT p) then env_PORT p else VStr "5555".

(** [parseInt(PORT, 10)], the port handed to [app.listen]. *)
Definition listenPort (p : Process) : option Z := parseInt10 (ToString (PORT p)).

(** The callback of [app.listen]. *)
Definition onListening (e : Env) (p : Process) (w : World) : World :=
  emit e Logger.Info
    [("event", VStr "SERVER_STARTED");
     ("message", VStr "🚀 Server successfully started");
     ("port", PORT p);
     ("environment",
      if truthy (env_NODE_ENV p) then env_NODE_ENV p else VStr "development");
     ("timestamp", VStr (isoNow e w));
     ("nodeVersion", VStr (version p));
     ("memory", memoryUsage p)] w.

(** The [SIGTERM] listener, with the callback of [server.close] run once the
    server has closed: the world it leaves and the exit code. *)
Definition onSigterm (e : Env) (w : World) : World * Z :=
  let w := emit e Logger.Warn
    [("event", VStr "SHUTDOWN_INITIATED");
     ("message", VStr "🔄 SIGTERM received. Initiating graceful shutdown");
     ("timestamp", VStr (isoNow e w))] w in
  let w := emit e Logger.Info
    [("event", VStr "SERVER_STOPPED");
     ("message", VStr "🛑 Server stopped gracefully");
     ("timestamp", VStr (isoNow e w))] w in
  (w, 0).

(** *** The application *)

(** The routes, reached with the parsed body. *)
Definition route (e : Env) (req : Request) (b : value) (w : World) : World * Outcome :=
  match target req with
  | PostUsers => postUsers e req b w
  | PostPosts => postPosts e req b w
  | PerformanceTest scenario => performanceTest e req scenario w
  | SimulateError type => simulateError e req type w
  | Health => healthCheck e req w
  end.

(** One request through the stack in registration order: the logging
    middleware, [express.json()], the routes, the error handler for a fault
    passed on by any of them, and the [finish] listener once a response has
    been sent. *)
Definition app (e : Env) (req : Request) (w : World) : World * option Response :=
  let '(req, listener, w) := loggingMiddleware e req w in
  let '(w, outcome) :=
    match payload req with
    | Malformed err => (w, Threw err)
    | Parsed b => route e req b w
    end in
  let '(w, outcome) :=
    match outcome with
    | Threw err => globalErrorHandler e req err w
    | _ => (w, outcome)
    end in
  match outcome with
  | Responded res => (onFinish e req listener res w, Some res)
  | _ => (w, None)
  end.

(** The records the durable transport received, and the texts the console
    wrote, while [app] served [req]. *)
Definition emitted (e : Env) (req : Request) (w : World) : list obj :=
  drop (emitted_so_far w) (Logger.otlp (sinks (fst (app e req w)))).

Definition printed (e : Env) (req : Request) (w : World) : list string :=
  drop (length (Logger.stdout (sinks w))) (Logger.stdout (sinks (fst (app e req w)))).

Definition response (e : Env) (req : Request) (w : World) : option Response :=
  snd (app e req w).

(** *** Reading the emitted records *)

Definition is_event (ev : string) (r : obj) : bool :=
  match lookup_prop "event" r with
  | Some (VStr s) => String.eqb s ev
  | _ => false
  end.

Definition count_event (ev : string) (l : list obj) : nat :=
  length (List.filter (is_event ev) l).

Definition has_level (l : Logger.level) (r : obj) : bool :=
  match lookup_prop "level" r with
  | Some (VStr s) => String.eqb s (Logger.level_name l)
  | _ => false
  end.

(** What the durable transport holds after a run that began in [w] and called
    the level methods with [calls], in that order: the i-th call is recorded
    under the ambient state of that moment. *)
Definition recorded (e : Env) (w : World) (calls : list (Logger.level * obj))
  : list obj :=
  Logger.otlp (sinks w)
  ++ imap (fun i call =>
             Logger.record (ambient e (emitted_so_far w + i)%nat) (fst call) (snd call))
       calls.

(** Is [r] one of the three events of the request lifecycle? *)
Definition lifecycle_event (r : obj) : bool :=
  is_event "REQUEST_RECEIVED" r || is_event "REQUEST_COMPLETED" r
  || is_event "UNHANDLED_ERROR" r.

End App.

(* ===================================================================== *)
(** ** tracing.js *)
(* ===================================================================== *)

Module Tracing.
Import JS.

(** [logHook] of the winston instrumentation (lines 23-31), on the span the
    instrumentation passes and the record being written. *)
Definition logHook (span : option Logger.SpanContext) (record : obj) : obj :=
  let record := set_prop "service.name" (VStr "nodejs-signoz-service") record in
  match span with
  | Some spanContext =>
      let record := set_prop "trace_id" (VStr (Logger.traceId spanContext)) record in
      let record := set_prop "span_id" (VStr (Logger.spanId spanContext)) record in
      set_prop "trace_flags" (VStr (toString16 (Logger.traceFlags spanContext))) record
  | None => record
  end.

End Tracing.

(* ===================================================================== *)
(** ** The specification's wording, where it is compared with the code *)
(* ===================================================================== *)

Module Stated.
Import JS App.

(** The console attributes as the specification describes them: the caller's
    attributes without the trace fields and without the correlation field. *)
Definition consoleAttributes (info : obj) : obj :=
  rest_without
    ["level"; "message"; "timestamp"; "event"; "service";
     "trace_id"; "span_id"; "trace_flags"; "requestId"] info.

(** [timestamp [level] event_type: message], then those attributes. *)
Definition consoleLine (info : obj) : string :=
  let attributes := consoleAttributes info in
  ToString (prop "timestamp" info) +:+ " [" +:+ ToString (prop "level" info) +:+ "] "
    +:+ ToString (prop "event" info) +:+ ": " +:+ ToString (prop "message" info)
    +:+ (if (0 <? Z.of_nat (length attributes))
         then LF +:+ "  " +:+ replace_newlines (LF +:+ "  ") (stringify2 (VObj attributes))
         else EmptyString).

(** Is [r] one of the two terminal lifecycle events? *)
Definition terminal (r : obj) : bool :=
  is_event "REQUEST_COMPLETED" r || is_event "UNHANDLED_ERROR" r.

(** One received event, one terminal event, one correlation id. *)
Definition lifecycle (e : Env) (req : Request) (w : World) : Prop :=
  let events := emitted e req w in
  count_event "REQUEST_RECEIVED" events = 1%nat ∧
  (count_event "REQUEST_COMPLETED" events + count_event "UNHANDLED_ERROR" events = 1)%nat ∧
  ∀ r, r ∈ events →
       is_event "REQUEST_RECEIVED" r || terminal r = true →
       lookup_prop "requestId" r = Some (VStr (uuid_request e)).

(** A non-negative duration, carried by every terminal event. *)
Definition timing (e : Env) (req : Request) (w : World) : Prop :=
  0 ≤ now_finish e - now_start e ∧
  ∀ r, r ∈ emitted e req w →
       terminal r = true →
       lookup_prop "duration" r = Some (ms (now_finish e - now_start e)).

(** The 500 response of the custom simulation and an error-level event with
    the response's [requestId]. *)
Definition custom_simulation (e : Env) (req : Request) (w : World) : Prop :=
  ∃ fields event rid,
    response e req w = Some {| statusCode := 500; body := VObj fields |} ∧
    lookup_prop "error" fields = Some (VStr "Simulated error") ∧
    lookup_prop "type" fields = Some (VStr "custom") ∧
    lookup_prop "message" fields = Some (VStr "Custom application error") ∧
    event ∈ emitted e req w ∧
    is_event "ERROR_SIMULATION_TRIGGERED" event = true ∧
    has_level Logger.Error event = true ∧
    lookup_prop "requestId" event = Some rid ∧
    lookup_prop "requestId" fields = Some rid.


End Stated.

(* ===================================================================== *)
(** ** Sample runs *)
(* ===================================================================== *)

Module Sample.
Import JS App.

Definition span : Logger.SpanContext :=
  {| Logger.traceId := "50f527d5ff12b8e0f24756bbf535adf0";
     Logger.spanId := "65dfd566df8d9a49";
     Logger.traceFlags := 1 |}.

Definition traced : Logger.Ambient :=
  {| Logger.active_span := Some span;
     Logger.clock := "2025-02-17 19:04:35";
     Logger.paint := fun levelName => levelName |}.

Definition untraced : Logger.Ambient :=
  {| Logger.active_span := None;
     Logger.clock := "2025-02-17 19:04:35";
     Logger.paint := fun levelName => levelName |}.

Definition env : Env :=
  {| ambient := fun _ => traced;
     iso := fun _ => "2025-02-17T19:04:35.287Z";
     uuid_request := "57aa3e4a-c516-4a96-aad4-f3e9a080185e";
     uuid_entity := "44c4d46f-5a25-438c-853a-0b1f6a1c2d3e";
     now_start := 1739819075287;
     now_finish := 1739819075290;
     now_perf_start := 1739819075288;
     now_perf_end := 1739819075289;
     stack_of := fun nm msg => nm +:+ ": " +:+ msg;
     process_uptime := VNum 12;
     process_memory := VObj [("rss", VNum 52428800)];
     process_cpu := VObj [("user", VNum 120000); ("system", VNum 30000)] |}.

Definition world : World :=
  {| users := ∅; posts := ∅;
     sinks := {| Logger.otlp := []; Logger.stdout := [] |} |}.

Definition request (m p : string) (b : Payload) (t : Target) : Request :=
  {| method := m; path := p; ip := VStr "::1";
     userAgent := VStr "curl/8.5.0";
     headers := VObj [("host", VStr "localhost:5555")];
     query := VObj [];
     payload := b; target := t; requestId := VUndef |}.

(** [POST /users] with a body that is not JSON. *)
Definition malformed : Request :=
  request "POST" "/users"
    (Malformed (mkFault env "SyntaxError" "Unexpected end of JSON input")) PostUsers.

(** [GET /simulate-error/custom] *)
Definition custom : Request :=
  request "GET" "/simulate-error/custom" (Parsed (VObj [])) (SimulateError "custom").

(** [POST /users] with an email and an age but no username. *)
Definition no_username : Request :=
  request "POST" "/users"
    (Parsed (VObj [("email", VStr "b@c.com"); ("age", VNum 25)])) PostUsers.


(** [POST /posts] for a user that was never created. *)
Definition unknown_user : Request :=
  request "POST" "/posts"
    (Parsed (VObj [("userId", VStr "44c4d46f-5a25-438c-853a-0b1f6a1c2d3e");
                   ("title", VStr "Test Post");
                   ("content", VStr "Post content")])) PostPosts.

(** [POST /users] with the three fields. *)
Definition new_user : Request :=
  request "POST" "/users"
    (Parsed (VObj [("username", VStr "test_user");
                   ("email", VStr "test@example.com");
                   ("age", VNum 25)])) PostUsers.

(** The environment of a later request. *)
Definition later : Env :=
  {| ambient := fun _ => untraced;
     iso := fun _ => "2025-02-17T19:04:36.120Z";
     uuid_request := "dcff2036-ebdd-4258-99d9-e23a0e13fbfc";
     uuid_entity := "0c1d2e3f-4a5b-4c6d-8e7f-8091a2b3c4d5";
     now_start := 1739819076120;
     now_finish := 1739819076121;
     now_perf_start := 1739819076120;
     now_perf_end := 1739819076121;
     stack_of := fun nm msg => nm +:+ ": " +:+ msg;
     process_uptime := VNum 13;
     process_memory := VObj [("rss", VNum 52428800)];
     process_cpu := VObj [("user", VNum 120000); ("system", VNum 30000)] |}.

(** The record of a created user, as a caller hands it to [logger.info]. *)
Definition user_created : obj :=
  [("event", VStr "USER_CREATED");
   ("message", VStr "New user created successfully");
   ("requestId", VStr "57aa3e4a-c516-4a96-aad4-f3e9a080185e");
   ("userId", VStr "44c4d46f-5a25-438c-853a-0b1f6a1c2d3e");
   ("username", VStr "test_user")].

End Sample.

(* ===================================================================== *)
(** ** Properties *)
(* ===================================================================== *)

Import JS.

(** *** Objects *)

Section Objects.
Implicit Types (k : string) (v : value) (o : obj).

Lemma lookup_set_prop_eq k v o : lookup_prop k (set_prop k v o) = Some v.
Proof.
  induction o as [|[k' v'] o IH]; simpl.
  - by rewrite String.eqb_refl.
  - destruct (String.eqb k k') eqn:E; simpl.
    + by rewrite String.eqb_refl.
    + by rewrite E.
Qed.

Lemma lookup_set_prop_ne k k' v o :
  k ≠ k' → lookup_prop k (set_prop k' v o) = lookup_prop k o.
Proof.
  intros Hne. apply String.eqb_neq in Hne.
  induction o as [|[k0 v0] o IH]; simpl.
  - by rewrite Hne.
  - destruct (String.eqb k' k0) eqn:E; simpl.
    + apply String.eqb_eq in E as <-. by rewrite Hne.
    + by rewrite IH.
Qed.

Lemma lookup_rest_without ks k o :
  lookup_prop k (rest_without ks o)
  = if has_key ks k then None else lookup_prop k o.
Proof.
  induction o as [|[k' v'] o IH]; simpl.
  - by destruct (has_key ks k).
  - destruct (String.eqb k k') eqn:E.
    + apply String.eqb_eq in E as <-.
      destruct (has_key ks k) eqn:Hk; simpl; [done|].
      by rewrite String.eqb_refl.
    + destruct (has_key ks k') eqn:Hk'; simpl; rewrite ?E; exact IH.
Qed.
End Objects.

Section Rest.
Implicit Types (k : string) (v : value) (o : obj) (ks : list string).

Lemma rest_without_set_prop ks k v o :
  has_key ks k = true → rest_without ks (set_prop k v o) = rest_without ks o.
Proof.
  intros Hk. induction o as [|[k' v'] o IH]; simpl.
  - by rewrite Hk.
  - destruct (String.eqb k k') eqn:E; simpl.
    + apply String.eqb_eq in E as <-. by rewrite Hk.
    + by rewrite IH.
Qed.

Lemma rest_without_ext ks ks' o :
  (∀ k, has_key ks k = has_key ks' k) → rest_without ks o = rest_without ks' o.
Proof.
  intros H. induction o as [|[k v] o IH]; simpl; [done|].
  by rewrite H, IH.
Qed.

Lemma has_key_app ks ks' k :
  has_key (ks ++ ks') k = has_key ks k || has_key ks' k.
Proof. unfold has_key. apply existsb_app. Qed.

Lemma rest_without_twice ks ks' o :
  rest_without ks' (rest_without ks o) = rest_without (ks ++ ks') o.
Proof.
  induction o as [|[k v] o IH]; simpl; [done|].
  rewrite has_key_app.
  destruct (has_key ks k); simpl; [exact IH|].
  destruct (has_key ks' k); simpl; by rewrite IH.
Qed.
End Rest.

(** *** The logger *)

Section LoggerFacts.
Import Logger.
Variables (a : Ambient) (l : level) (msg : obj).

Lemma lookup_level_method k :
  truthy (prop "message" msg) = true → k ≠ "level" → k ≠ "service" →
  lookup_prop k (level_method l msg) = lookup_prop k msg.
Proof.
  intros Hm H1 H2. unfold level_method. rewrite Hm. simpl.
  by rewrite !lookup_set_prop_ne.
Qed.

Lemma lookup_level_method_wrapped k :
  truthy (prop "message" msg) = false → k ≠ "message" → k ≠ "level" → k ≠ "service" →
  lookup_prop k (level_method l msg) = None.
Proof.
  intros Hm H0 H1 H2. unfold level_method. rewrite Hm. simpl.
  apply String.eqb_neq in H0, H1, H2. by rewrite H0, H1, H2.
Qed.

Lemma lookup_traceFormat k info :
  k ≠ "trace_id" → k ≠ "span_id" → k ≠ "trace_flags" →
  lookup_prop k (traceFormat a info) = lookup_prop k info.
Proof.
  intros H1 H2 H3. unfold traceFormat.
  destruct (active_span a); [|done]. by rewrite !lookup_set_prop_ne.
Qed.

Lemma lookup_traceFormat_none k info :
  active_span a = None → lookup_prop k (traceFormat a info) = lookup_prop k info.
Proof. intros H. unfold traceFormat. by rewrite H. Qed.

Lemma lookup_record k :
  truthy (prop "message" msg) = true →
  has_key ["level"; "service"; "trace_id"; "span_id"; "trace_flags"; "timestamp"] k = false →
  lookup_prop k (record a l msg) = lookup_prop k msg.
Proof.
  intros Hm Hk. simpl in Hk.
  repeat (apply orb_false_elim in Hk as [?%String.eqb_neq Hk]).
  unfold record, loggerFormat, errorsFormat, timestampFormat.
  rewrite lookup_set_prop_ne by done.
  rewrite lookup_traceFormat by done.
  by apply lookup_level_method.
Qed.

Lemma lookup_record_level :
  lookup_prop "level" (record a l msg) = Some (VStr (level_name l)).
Proof.
  unfold record, loggerFormat, errorsFormat, timestampFormat.
  rewrite lookup_set_prop_ne by done.
  rewrite lookup_traceFormat by done.
  unfold level_method. simpl.
  rewrite lookup_set_prop_ne by done. apply lookup_set_prop_eq.
Qed.

Lemma lookup_record_timestamp :
  lookup_prop "timestamp" (record a l msg) = Some (VStr (clock a)).
Proof. apply lookup_set_prop_eq. Qed.

Lemma lookup_record_span ctx :
  active_span a = Some ctx →
  lookup_prop "trace_id" (record a l msg) = Some (VStr (traceId ctx)) ∧
  lookup_prop "span_id" (record a l msg) = Some (VStr (spanId ctx)) ∧
  lookup_prop "trace_flags" (record a l msg) = Some (VStr (toString16 (traceFlags ctx))).
Proof.
  intros H. unfold record, loggerFormat, errorsFormat, timestampFormat, traceFormat.
  rewrite H. repeat split.
  - rewrite !lookup_set_prop_ne by done. apply lookup_set_prop_eq.
  - rewrite !lookup_set_prop_ne by done. apply lookup_set_prop_eq.
  - rewrite lookup_set_prop_ne by done. apply lookup_set_prop_eq.
Qed.

Lemma lookup_record_no_span k :
  active_span a = None →
  k ∈ ["trace_id"; "span_id"; "trace_flags"] →
  lookup_prop k msg = None →
  lookup_prop k (record a l msg) = None.
Proof.
  intros H Hk Hmsg.
  assert (k ≠ "timestamp" ∧ k ≠ "level" ∧ k ≠ "service" ∧ k ≠ "message")
    as (H1 & H2 & H3 & H4).
  { set_unfold. destruct Hk as [->|[->|[->|[]]]]; done. }
  unfold record, loggerFormat, errorsFormat, timestampFormat.
  rewrite lookup_set_prop_ne by done.
  rewrite lookup_traceFormat_none by done.
  destruct (truthy (prop "message" msg)) eqn:Hm.
  - by rewrite lookup_level_method.
  - by apply lookup_level_method_wrapped.
Qed.

Lemma otlp_log s :
  enabled l = true → otlp (log a l msg s) = otlp s ++ [record a l msg].
Proof. intros H. unfold log. simpl. by rewrite H. Qed.

Lemma stdout_log s :
  enabled l = true →
  stdout (log a l msg s) = stdout s ++ [consoleFormat a l (record a l msg)].
Proof. intros H. unfold log. simpl. by rewrite H. Qed.

(** What [prettyLog] prints after the head line: the record without the
    four head fields, the trace fields and [service]. *)
Lemma cleanMeta_colorized :
  cleanMeta (colorizeFormat a l (record a l msg))
  = rest_without
      ["level"; "message"; "timestamp"; "event";
       "trace_id"; "span_id"; "trace_flags"; "service"] (record a l msg).
Proof.
  unfold cleanMeta, colorizeFormat.
  rewrite rest_without_twice, rest_without_set_prop by done.
  apply rest_without_ext. intros k. simpl.
  repeat match goal with |- context [String.eqb k ?s] => destruct (String.eqb k s) end;
    reflexivity.
Qed.
End LoggerFacts.

(** C5 — an enabled level method hands exactly one record to the durable
    transport; when a span is active at that moment the record carries that
    span's [trace_id] and [span_id] (and its flags in hexadecimal); when no
    span is active the logger adds none of the three fields, so a record
    whose caller did not use those names has them absent. *)
Theorem trace_fields_follow_active_span
    (a : Logger.Ambient) (l : Logger.level) (msg : obj) (s : Logger.Sinks) :
  Logger.enabled l = true →
  Logger.otlp (Logger.log a l msg s) = Logger.otlp s ++ [Logger.record a l msg] ∧
  (∀ ctx, Logger.active_span a = Some ctx →
     lookup_prop "trace_id" (Logger.record a l msg) = Some (VStr (Logger.traceId ctx)) ∧
     lookup_prop "span_id" (Logger.record a l msg) = Some (VStr (Logger.spanId ctx)) ∧
     lookup_prop "trace_flags" (Logger.record a l msg)
       = Some (VStr (toString16 (Logger.traceFlags ctx)))) ∧
  (Logger.active_span a = None →
   ∀ k, k ∈ ["trace_id"; "span_id"; "trace_flags"] →
        lookup_prop k msg = None →
        lookup_prop k (Logger.record a l msg) = None).
Proof.
  intros Hl. split; [by apply otlp_log|]. split.
  - intros ctx Hctx. by apply lookup_record_span.
  - intros Hnone k Hk Hmsg. by apply lookup_record_no_span.
Qed.

Lemma trace_fields_follow_active_span_witness :
  lookup_prop "trace_id" (Logger.record Sample.traced Logger.Info Sample.user_created)
    = Some (VStr "50f527d5ff12b8e0f24756bbf535adf0") ∧
  lookup_prop "span_id" (Logger.record Sample.untraced Logger.Info Sample.user_created)
    = None.
Proof.
  split.
  - destruct (trace_fields_follow_active_span Sample.traced Logger.Info
                Sample.user_created (Logger.Build_Sinks [] []) eq_refl)
      as (_ & Hspan & _).
    exact (proj1 (Hspan Sample.span eq_refl)).
  - destruct (trace_fields_follow_active_span Sample.untraced Logger.Info
                Sample.user_created (Logger.Build_Sinks [] []) eq_refl)
      as (_ & _ & Hnone).
    apply (Hnone eq_refl "span_id").
    + apply list_elem_of_further, list_elem_of_here.
    + reflexivity.
Defined.

(** C2, as the code has it — for every record of an enabled level, the durable
    transport receives the whole record: the caller's fields (so its
    [requestId]) and the trace fields of the active span.  The console
    transport prints [timestamp [level] event: message] and then, two-space
    indented, the record without [level], [message], [timestamp], [event],
    the three trace fields and [service]; every other field, [requestId]
    included, is printed. *)
Theorem console_line_and_durable_record
    (a : Logger.Ambient) (l : Logger.level) (msg : obj) (s : Logger.Sinks) :
  Logger.enabled l = true →
  truthy (prop "message" msg) = true →
  let info := Logger.record a l msg in
  let shown :=
    rest_without ["level"; "message"; "timestamp"; "event";
                  "trace_id"; "span_id"; "trace_flags"; "service"] info in
  Logger.otlp (Logger.log a l msg s) = Logger.otlp s ++ [info] ∧
  Logger.stdout (Logger.log a l msg s)
    = Logger.stdout s ++
      [Logger.clock a +:+ " [" +:+ Logger.paint a (Logger.level_name l) +:+ "] "
         +:+ ToString (prop "event" msg) +:+ ": " +:+ ToString (prop "message" msg)
         +:+ (if (0 <? Z.of_nat (length shown))
              then LF +:+ "  " +:+ replace_newlines (LF +:+ "  ") (stringify2 (VObj shown))
              else EmptyString)] ∧
  lookup_prop "requestId" shown = lookup_prop "requestId" msg ∧
  lookup_prop "requestId" info = lookup_prop "requestId" msg ∧
  (∀ k, k ∈ ["trace_id"; "span_id"; "trace_flags"; "service"] →
        lookup_prop k shown = None) ∧
  (∀ ctx, Logger.active_span a = Some ctx →
     lookup_prop "trace_id" info = Some (VStr (Logger.traceId ctx)) ∧
     lookup_prop "span_id" info = Some (VStr (Logger.spanId ctx)) ∧
     lookup_prop "trace_flags" info = Some (VStr (toString16 (Logger.traceFlags ctx)))).
Proof.
  intros Hl Hm info shown.
  assert (Hid : lookup_prop "requestId" info = lookup_prop "requestId" msg)
    by (by apply lookup_record).
  split; [by apply otlp_log|]. split; [|split; [|split; [done|split]]].
  - rewrite stdout_log by done. f_equal. f_equal.
    unfold Logger.consoleFormat, Logger.prettyLog.
    rewrite cleanMeta_colorized. fold info. fold shown.
    unfold prop, Logger.colorizeFormat.
    rewrite lookup_set_prop_eq.
    rewrite !lookup_set_prop_ne by done.
    unfold info. rewrite lookup_record_timestamp.
    rewrite !lookup_record by done.
    reflexivity.
  - unfold shown. rewrite lookup_rest_without. simpl. exact Hid.
  - intros k Hk. unfold shown. rewrite lookup_rest_without.
    set_unfold. destruct Hk as [->|[->|[->|[->|[]]]]]; reflexivity.
  - intros ctx Hctx. by apply lookup_record_span.
Qed.

Lemma console_line_and_durable_record_witness :
  lookup_prop "requestId"
    (rest_without ["level"; "message"; "timestamp"; "event";
                   "trace_id"; "span_id"; "trace_flags"; "service"]
       (Logger.record Sample.traced Logger.Info Sample.user_created))
  = Some (VStr "57aa3e4a-c516-4a96-aad4-f3e9a080185e").
Proof.
  destruct (console_line_and_durable_record Sample.traced Logger.Info
              Sample.user_created (Logger.Build_Sinks [] []) eq_refl eq_refl)
    as (_ & _ & Hshown & _).
  exact Hshown.
Defined.

(** C2, as worded — on a record with a [requestId] the console text is not
    the one that leaves the correlation field out: [prettyLog] prints it. *)
Lemma console_keeps_requestId :
  Logger.consoleFormat Sample.traced Logger.Info
    (Logger.record Sample.traced Logger.Info Sample.user_created)
  ≠ Stated.consoleLine
      (Logger.colorizeFormat Sample.traced Logger.Info
         (Logger.record Sample.traced Logger.Info Sample.user_created)).
Proof.
  intros H. apply (f_equal String.length) in H. vm_compute in H. discriminate H.
Qed.

(** *** The application *)

Import App.

Section EmitFacts.
Variables (e : Env) (l : Logger.level) (msg : obj) (w : World).

Lemma otlp_emit :
  Logger.enabled l = true →
  Logger.otlp (sinks (emit e l msg w))
  = Logger.otlp (sinks w) ++ [Logger.record (ambient e (emitted_so_far w)) l msg].
Proof. intros H. unfold emit. simpl. by rewrite H. Qed.

Lemma users_emit : users (emit e l msg w) = users w.
Proof. reflexivity. Qed.

Lemma posts_emit : posts (emit e l msg w) = posts w.
Proof. reflexivity. Qed.
End EmitFacts.

Section Pipeline.
Variables (e : Env) (req : Request) (w : World).

Lemma payload_entered :
  payload (loggingMiddleware e req w).1.1 = payload req.
Proof. reflexivity. Qed.

Lemma target_entered :
  target (loggingMiddleware e req w).1.1 = target req.
Proof. reflexivity. Qed.

Lemma requestId_entered :
  requestId (loggingMiddleware e req w).1.1 = VStr (uuid_request e).
Proof. reflexivity. Qed.

Lemma app_routed b w' res :
  payload req = Parsed b →
  route e (loggingMiddleware e req w).1.1 b (loggingMiddleware e req w).2
    = (w', Responded res) →
  app e req w
  = (onFinish e (loggingMiddleware e req w).1.1 (loggingMiddleware e req w).1.2 res w',
     Some res).
Proof.
  intros Hp Hr. unfold app.
  destruct (loggingMiddleware e req w) as [[req' lst] w1] eqn:Hm.
  assert (payload req' = payload req) as ->.
  { change req' with (req', lst, w1).1.1. rewrite <- Hm. reflexivity. }
  rewrite Hp. simpl in Hr. rewrite Hr. reflexivity.
Qed.

Lemma app_malformed err :
  payload req = Malformed err →
  app e req w
  = (let m := loggingMiddleware e req w in
     let h := globalErrorHandler e m.1.1 err m.2 in
     onFinish e m.1.1 m.1.2
       {| statusCode := 500;
          body := VObj [("error", VStr "Internal Server Error");
                        ("requestId", requestId_or_unknown m.1.1);
                        ("message", VStr (message err))] |} h.1,
     Some {| statusCode := 500;
             body := VObj [("error", VStr "Internal Server Error");
                           ("requestId", requestId_or_unknown (loggingMiddleware e req w).1.1);
                           ("message", VStr (message err))] |}).
Proof.
  intros Hp. unfold app.
  destruct (loggingMiddleware e req w) as [[req' lst] w1] eqn:Hm.
  assert (payload req' = payload req) as ->.
  { change req' with (req', lst, w1).1.1. rewrite <- Hm. reflexivity. }
  rewrite Hp. reflexivity.
Qed.
End Pipeline.

Arguments Logger.record : simpl never.
Arguments emit : simpl never.

Ltac event_of_record :=
  unfold lifecycle_event, is_event, has_level;
  rewrite ?lookup_record_level;
  rewrite ?lookup_record by reflexivity;
  reflexivity.

Lemma validate_eq (username email age : value) :
  validate username email age
  = match invalidAge age with
    | Some bad =>
        Some ((if truthy username then [] else ["Username is required"])
              ++ (if truthy email then [] else ["Email is required"])
              ++ (if bad then ["Invalid age"] else []))
    | None => None
    end.
Proof.
  unfold validate.
  destruct (truthy username), (truthy email), (invalidAge age) as [[|]|];
    reflexivity.
Qed.

(** Every route sends a response, and what it logs on the way is none of the
    three lifecycle events. *)
Lemma route_responds (e : Env) (req : Request) (b : value) (w : World) :
  ∃ w' res recs,
    route e req b w = (w', Responded res) ∧
    Logger.otlp (sinks w') = Logger.otlp (sinks w) ++ recs ∧
    Forall (λ r, lifecycle_event r = false) recs.
Proof.
  unfold route. destruct (target req) as [| |scenario|type|].
  - unfold postUsers. destruct (destructure e "username" b).
    + eexists _, _, _. split; [reflexivity|]. split; [by rewrite otlp_emit|].
      repeat constructor. event_of_record.
    + destruct (validate _ _ _) as [found|].
      * destruct (0 <? _).
        -- eexists _, _, _. split; [reflexivity|]. split; [by rewrite otlp_emit|].
           repeat constructor. event_of_record.
        -- eexists _, _, _. split; [reflexivity|]. split; [by rewrite otlp_emit|].
           repeat constructor. event_of_record.
      * eexists _, _, _. split; [reflexivity|]. split; [by rewrite otlp_emit|].
        repeat constructor. event_of_record.
  - unfold postPosts. destruct (destructure e "userId" b).
    + eexists _, _, _. split; [reflexivity|]. split; [by rewrite otlp_emit|].
      repeat constructor. event_of_record.
    + destruct (negb _).
      * eexists _, _, _. split; [reflexivity|]. split; [by rewrite otlp_emit|].
        repeat constructor. event_of_record.
      * eexists _, _, _. split; [reflexivity|]. split; [by rewrite otlp_emit|].
        repeat constructor. event_of_record.
  - unfold performanceTest. destruct (runScenario e scenario).
    + eexists _, _, _. split; [reflexivity|].
      split; [rewrite !otlp_emit by done; by rewrite <- app_assoc|].
      repeat constructor; event_of_record.
    + eexists _, _, _. split; [reflexivity|].
      split; [rewrite !otlp_emit by done; by rewrite <- app_assoc|].
      repeat constructor; event_of_record.
  - unfold simulateError, simulate.
    repeat match goal with |- context [if ?c then _ else _] => destruct c end.
    all: eexists _, _, _; (split; [reflexivity|]);
      (split; [rewrite !otlp_emit by done; by rewrite <- app_assoc|]);
      repeat constructor; event_of_record.
  - unfold healthCheck.
    eexists _, _, _. split; [reflexivity|]. split; [by rewrite otlp_emit|].
    repeat constructor. event_of_record.
Qed.

Lemma drop_three (l : list obj) (a b c : obj) :
  drop (length l) (((l ++ [a]) ++ [b]) ++ [c]) = [a; b; c].
Proof. rewrite <- !app_assoc. apply drop_app_length. Qed.

Lemma drop_four (l : list obj) (a b c d : obj) :
  drop (length l) ((((l ++ [a]) ++ [b]) ++ [c]) ++ [d]) = [a; b; c; d].
Proof. rewrite <- !app_assoc. apply drop_app_length. Qed.

(** The records of one request: the received event first, the completed
    event last, and between them what the route logged, or the unhandled
    error when the body could not be parsed. *)
Lemma emitted_shape (e : Env) (req : Request) (w : World) :
  ∃ first mid last res,
    emitted e req w = first :: mid ++ [last] ∧
    response e req w = Some res ∧
    (is_event "REQUEST_RECEIVED" first = true ∧
     is_event "REQUEST_COMPLETED" first = false ∧
     is_event "UNHANDLED_ERROR" first = false ∧
     lookup_prop "requestId" first = Some (VStr (uuid_request e))) ∧
    (is_event "REQUEST_RECEIVED" last = false ∧
     is_event "REQUEST_COMPLETED" last = true ∧
     is_event "UNHANDLED_ERROR" last = false ∧
     lookup_prop "requestId" last = Some (VStr (uuid_request e)) ∧
     lookup_prop "statusCode" last = Some (VNum (statusCode res)) ∧
     lookup_prop "duration" last = Some (ms (now_finish e - now_start e))) ∧
    match payload req with
    | Parsed _ => Forall (λ r, lifecycle_event r = false) mid
    | Malformed err =>
        ∃ r, mid = [r] ∧
             is_event "REQUEST_RECEIVED" r = false ∧
             is_event "REQUEST_COMPLETED" r = false ∧
             is_event "UNHANDLED_ERROR" r = true ∧
             has_level Logger.Error r = true ∧
             lookup_prop "requestId" r = Some (requestId_or_unknown
                                                 (loggingMiddleware e req w).1.1) ∧
             lookup_prop "error" r = Some (VStr (message err)) ∧
             lookup_prop "duration" r = None
    end.
Proof.
  unfold emitted, response.
  destruct (payload req) as [b|err] eqn:Hp.
  - destruct (route_responds e (loggingMiddleware e req w).1.1 b
                (loggingMiddleware e req w).2) as (w' & res & recs & Hr & Hs & Hrecs).
    rewrite (app_routed e req w b w' res Hp Hr).
    eexists _, recs, _, res. split; [|split; [reflexivity|]].
    + simpl. rewrite Hs. simpl.
      rewrite <- !app_assoc. unfold emitted_so_far at 1.
      rewrite drop_app_length. reflexivity.
    + split; [|split; [|exact Hrecs]].
      * repeat split; event_of_record.
      * repeat split; event_of_record.
  - rewrite (app_malformed e req w err Hp).
    eexists _, [_], _, _. split; [|split; [reflexivity|]].
    + simpl. unfold emitted_so_far.
      exact (drop_three (Logger.otlp (sinks w)) _ _ _).
    + split; [|split].
      * repeat split; event_of_record.
      * repeat split; event_of_record.
      * eexists. split; [reflexivity|]. repeat split; event_of_record.
Qed.

Section Counting.
Implicit Types (ev : string) (r : obj) (l : list obj).

Lemma count_event_cons ev r l :
  count_event ev (r :: l)
  = ((if is_event ev r then 1 else 0) + count_event ev l)%nat.
Proof. unfold count_event. simpl. by destruct (is_event ev r). Qed.

Lemma count_event_app ev l l' :
  count_event ev (l ++ l') = (count_event ev l + count_event ev l')%nat.
Proof.
  induction l as [|r l IH]; [done|].
  simpl. rewrite !count_event_cons, IH. lia.
Qed.

Lemma count_event_none ev l :
  Forall (λ r, is_event ev r = false) l → count_event ev l = 0%nat.
Proof.
  induction 1 as [|r l Hr _ IH]; [done|].
  by rewrite count_event_cons, Hr, IH.
Qed.

Lemma lifecycle_event_false r :
  lifecycle_event r = false →
  is_event "REQUEST_RECEIVED" r = false ∧
  is_event "REQUEST_COMPLETED" r = false ∧
  is_event "UNHANDLED_ERROR" r = false.
Proof.
  unfold lifecycle_event. intros H.
  apply orb_false_elim in H as [H ?]. apply orb_false_elim in H as [? ?]. done.
Qed.
End Counting.

Lemma elem_of_framed (r first final : obj) (mid : list obj) :
  r ∈ first :: mid ++ [final] → r = first ∨ r ∈ mid ∨ r = final.
Proof. rewrite elem_of_cons, elem_of_app, list_elem_of_singleton. tauto. Qed.

(** C1, as the code has it — every request gives exactly one
    [REQUEST_RECEIVED], first, and exactly one [REQUEST_COMPLETED], last; a
    fault passed to the global error handler gives one [UNHANDLED_ERROR] as
    well, and no other request gives any; all of them carry the request's
    uuid as [requestId]. *)
Theorem lifecycle_events (e : Env) (req : Request) (w : World) :
  uuid_request e ≠ EmptyString →
  count_event "REQUEST_RECEIVED" (emitted e req w) = 1%nat ∧
  count_event "REQUEST_COMPLETED" (emitted e req w) = 1%nat ∧
  count_event "UNHANDLED_ERROR" (emitted e req w)
    = match payload req with Malformed _ => 1%nat | Parsed _ => 0%nat end ∧
  is_event "REQUEST_RECEIVED" <$> head (emitted e req w) = Some true ∧
  is_event "REQUEST_COMPLETED" <$> last (emitted e req w) = Some true ∧
  (∀ r, r ∈ emitted e req w →
        lifecycle_event r = true →
        lookup_prop "requestId" r = Some (VStr (uuid_request e))).
Proof.
  intros Huuid.
  destruct (emitted_shape e req w)
    as (first & mid & final & res & -> & _ & (F1 & F2 & F3 & F4)
        & (L1 & L2 & L3 & L4 & _) & Hmid).
  assert (Hcount : ∀ ev,
    count_event ev (first :: mid ++ [final])
    = ((if is_event ev first then 1 else 0) + count_event ev mid
       + (if is_event ev final then 1 else 0))%nat).
  { intros ev. rewrite count_event_cons, count_event_app, count_event_cons.
    unfold count_event at 2. simpl. lia. }
  assert (Hlast : last (first :: mid ++ [final]) = Some final)
    by (rewrite app_comm_cons; apply last_snoc).
  rewrite !Hcount, F1, F2, F3, L1, L2, L3, Hlast. simpl. rewrite F1, L2.
  destruct (payload req) as [b|err].
  - assert (Hq : ∀ ev, ev ∈ ["REQUEST_RECEIVED"; "REQUEST_COMPLETED"; "UNHANDLED_ERROR"] →
                       count_event ev mid = 0%nat).
    { intros ev Hev. apply count_event_none.
      eapply Forall_impl; [exact Hmid|]. intros r Hr.
      apply lifecycle_event_false in Hr as (? & ? & ?).
      set_unfold. destruct Hev as [->|[->|[->|[]]]]; done. }
    rewrite !Hq by set_solver.
    repeat split; try done.
    intros r Hr Hlife.
    apply elem_of_framed in Hr as [->|[Hr| ->]]; [done| |done].
    rewrite Forall_forall in Hmid. apply Hmid in Hr. congruence.
  - destruct Hmid as (r' & -> & U1 & U2 & U3 & _ & U4 & _).
    rewrite !count_event_cons, U1, U2, U3. simpl.
    repeat split; try done.
    intros r Hr Hlife.
    apply (elem_of_framed r first final [r']) in Hr as [->|[Hr| ->]]; [done| |done].
    apply list_elem_of_singleton in Hr as ->.
    rewrite U4. unfold requestId_or_unknown. rewrite requestId_entered. simpl.
    by apply String.eqb_neq in Huuid as ->.
Qed.

Lemma lifecycle_events_witness :
  count_event "UNHANDLED_ERROR" (emitted Sample.env Sample.malformed Sample.world) = 1%nat ∧
  count_event "REQUEST_COMPLETED" (emitted Sample.env Sample.malformed Sample.world) = 1%nat.
Proof.
  assert (Huuid : uuid_request Sample.env ≠ EmptyString) by discriminate.
  destruct (lifecycle_events Sample.env Sample.malformed Sample.world Huuid)
    as (_ & Hcompleted & Hunhandled & _).
  split; [exact Hunhandled | exact Hcompleted].
Defined.

(** C1, as worded — a request whose body is not JSON gets both terminal
    events: the error handler's [UNHANDLED_ERROR], and then, because the
    handler sends a response, the [finish] listener's [REQUEST_COMPLETED]. *)
Lemma lifecycle_both_terminal_events :
  ¬ Stated.lifecycle Sample.env Sample.malformed Sample.world.
Proof.
  intros (_ & Hone & _). vm_compute in Hone. discriminate Hone.
Qed.

(** C4, as the code has it — the completion event of every request carries
    [duration], the clock reading in the [finish] listener minus the one taken
    on entry, printed with [ms]; the difference is non-negative when the
    second reading is not earlier than the first; the [UNHANDLED_ERROR] event
    has no [duration]. *)
Theorem completion_duration (e : Env) (req : Request) (w : World) :
  (∃ r, last (emitted e req w) = Some r ∧
        is_event "REQUEST_COMPLETED" r = true ∧
        lookup_prop "duration" r = Some (ms (now_finish e - now_start e))) ∧
  (∀ r, r ∈ emitted e req w →
        is_event "REQUEST_COMPLETED" r = true →
        lookup_prop "duration" r = Some (ms (now_finish e - now_start e))) ∧
  (∀ r, r ∈ emitted e req w →
        is_event "UNHANDLED_ERROR" r = true →
        lookup_prop "duration" r = None) ∧
  (now_start e ≤ now_finish e → 0 ≤ now_finish e - now_start e).
Proof.
  destruct (emitted_shape e req w)
    as (first & mid & final & res & -> & _ & (F1 & F2 & F3 & F4)
        & (L1 & L2 & L3 & L4 & _ & L5) & Hmid).
  assert (Hmiddle : ∀ r, r ∈ mid →
            is_event "REQUEST_COMPLETED" r = false ∧
            (is_event "UNHANDLED_ERROR" r = true → lookup_prop "duration" r = None)).
  { intros r Hr. destruct (payload req).
    - rewrite Forall_forall in Hmid. apply Hmid in Hr.
      apply lifecycle_event_false in Hr as (? & ? & ?). split; congruence.
    - destruct Hmid as (r' & -> & U1 & U2 & U3 & _ & _ & _ & U4).
      apply list_elem_of_singleton in Hr as ->. done. }
  split; [|split; [|split; [|lia]]].
  - exists final. split; [|done]. rewrite app_comm_cons. apply last_snoc.
  - intros r Hr Hev.
    apply elem_of_framed in Hr as [->|[Hr| ->]]; [congruence| |done].
    apply Hmiddle in Hr as [? _]. congruence.
  - intros r Hr Hev.
    apply elem_of_framed in Hr as [->|[Hr| ->]]; [congruence| |congruence].
    apply Hmiddle in Hr as [_ Hr]. by apply Hr.
Qed.

Lemma completion_duration_witness :
  0 ≤ now_finish Sample.env - now_start Sample.env.
Proof.
  destruct (completion_duration Sample.env Sample.malformed Sample.world)
    as (_ & _ & _ & Hclock).
  apply Hclock. vm_compute. discriminate.
Defined.

(** C4, as worded — the failure event of a request whose body is not JSON
    carries no duration. *)
Lemma unhandled_error_without_duration :
  ¬ Stated.timing Sample.env Sample.malformed Sample.world.
Proof.
  intros [_ H].
  specialize (H (Logger.record Sample.traced Logger.Error
    [("event", VStr "UNHANDLED_ERROR");
     ("message", VStr "🚨 Unhandled application error");
     ("requestId", VStr (uuid_request Sample.env));
     ("error", VStr "Unexpected end of JSON input");
     ("stack", VStr "SyntaxError: Unexpected end of JSON input");
     ("path", VStr "/users");
     ("method", VStr "POST");
     ("timestamp", VStr "2025-02-17T19:04:35.287Z")])).
  assert (Hin : Logger.record Sample.traced Logger.Error
    [("event", VStr "UNHANDLED_ERROR");
     ("message", VStr "🚨 Unhandled application error");
     ("requestId", VStr (uuid_request Sample.env));
     ("error", VStr "Unexpected end of JSON input");
     ("stack", VStr "SyntaxError: Unexpected end of JSON input");
     ("path", VStr "/users");
     ("method", VStr "POST");
     ("timestamp", VStr "2025-02-17T19:04:35.287Z")]
    ∈ emitted Sample.env Sample.malformed Sample.world).
  { apply list_elem_of_further, list_elem_of_here. }
  specialize (H Hin eq_refl). vm_compute in H. discriminate H.
Qed.

(** *** The handlers *)

Lemma simulate_throws (e : Env) (type : string) :
  ∃ err, simulate e type = Some err.
Proof.
  unfold simulate.
  repeat match goal with |- context [if ?c then _ else _] => destruct c end;
    eexists; reflexivity.
Qed.

Lemma simulateError_eq (e : Env) (req : Request) (type : string) (w : World) err :
  simulate e type = Some err →
  simulateError e req type w
  = (let w1 := emit e Logger.Info
       [("event", VStr "ERROR_SIMULATION_STARTED");
        ("message", VStr "🔄 Starting error simulation");
        ("requestId", requestId req);
        ("errorType", VStr type)] w in
     emit e Logger.Error
       [("event", VStr "ERROR_SIMULATION_TRIGGERED");
        ("message", VStr "💥 Simulated error occurred");
        ("requestId", requestId req);
        ("errorType", VStr type);
        ("error", VStr (message err));
        ("stack", VStr (stack err));
        ("timestamp", VStr (isoNow e w1))] w1,
     respond 500 (VObj [("error", VStr "Simulated error");
                        ("type", VStr type);
                        ("message", VStr (message err))])).
Proof. intros H. unfold simulateError. by rewrite H. Qed.

(** The records of a request routed to the error simulation. *)
Lemma simulateError_emitted (e : Env) (req : Request) (type : string) (b : value)
    (w : World) err :
  target req = SimulateError type →
  payload req = Parsed b →
  simulate e type = Some err →
  response e req w
    = Some {| statusCode := 500;
              body := VObj [("error", VStr "Simulated error");
                            ("type", VStr type);
                            ("message", VStr (message err))] |} ∧
  ∃ received started triggered completed,
    emitted e req w = [received; started; triggered; completed] ∧
    (is_event "REQUEST_RECEIVED" received = true ∧
     lookup_prop "requestId" received = Some (VStr (uuid_request e))) ∧
    (is_event "ERROR_SIMULATION_STARTED" started = true ∧
     is_event "UNHANDLED_ERROR" started = false) ∧
    (is_event "ERROR_SIMULATION_TRIGGERED" triggered = true ∧
     is_event "UNHANDLED_ERROR" triggered = false ∧
     has_level Logger.Error triggered = true ∧
     lookup_prop "requestId" triggered = Some (VStr (uuid_request e)) ∧
     lookup_prop "error" triggered = Some (VStr (message err))) ∧
    (is_event "REQUEST_COMPLETED" completed = true ∧
     lookup_prop "requestId" completed = Some (VStr (uuid_request e)) ∧
     lookup_prop "statusCode" completed = Some (VNum 500)).
Proof.
  intros Ht Hp Hs.
  assert (Hr : route e (loggingMiddleware e req w).1.1 b (loggingMiddleware e req w).2
               = simulateError e (loggingMiddleware e req w).1.1 type
                   (loggingMiddleware e req w).2).
  { unfold route. by rewrite target_entered, Ht. }
  rewrite (simulateError_eq _ _ _ _ _ Hs) in Hr.
  unfold response, emitted. rewrite (app_routed e req w b _ _ Hp Hr).
  split; [reflexivity|].
  eexists _, _, _, _. split.
  - simpl. unfold emitted_so_far.
    exact (drop_four (Logger.otlp (sinks w)) _ _ _ _).
  - repeat split; event_of_record.
Qed.

(** C3, as the code has it — [GET /simulate-error/custom] is answered 500
    with exactly the three fields [error], [type] and [message] (no
    [requestId]); the [ERROR_SIMULATION_TRIGGERED] record has level [error]
    and the [requestId] the logging middleware gave the request, the one of
    its [REQUEST_RECEIVED] and [REQUEST_COMPLETED] records. *)
Theorem simulate_custom (e : Env) (req : Request) (b : value) (w : World) :
  target req = SimulateError "custom" →
  payload req = Parsed b →
  response e req w
    = Some {| statusCode := 500;
              body := VObj [("error", VStr "Simulated error");
                            ("type", VStr "custom");
                            ("message", VStr "Custom application error")] |} ∧
  ∃ received started triggered completed,
    emitted e req w = [received; started; triggered; completed] ∧
    is_event "ERROR_SIMULATION_TRIGGERED" triggered = true ∧
    has_level Logger.Error triggered = true ∧
    lookup_prop "requestId" triggered = Some (VStr (uuid_request e)) ∧
    is_event "REQUEST_RECEIVED" received = true ∧
    lookup_prop "requestId" received = Some (VStr (uuid_request e)) ∧
    is_event "REQUEST_COMPLETED" completed = true ∧
    lookup_prop "requestId" completed = Some (VStr (uuid_request e)).
Proof.
  intros Ht Hp.
  destruct (simulateError_emitted e req "custom" b w
              (mkFault e "Error" "Custom application error") Ht Hp eq_refl)
    as (Hres & r0 & r1 & r2 & r3 & Hev & (? & ?) & _ & (? & _ & ? & ? & _) & (? & ? & _)).
  split; [exact Hres|]. by exists r0, r1, r2, r3.
Qed.

Lemma simulate_custom_witness :
  response Sample.env Sample.custom Sample.world
  = Some {| statusCode := 500;
            body := VObj [("error", VStr "Simulated error");
                          ("type", VStr "custom");
                          ("message", VStr "Custom application error")] |}.
Proof.
  exact (proj1 (simulate_custom Sample.env Sample.custom (VObj []) Sample.world
                  eq_refl eq_refl)).
Defined.

(** C3, as worded — the response of the custom simulation has no
    [requestId] that the event's could be compared with. *)
Lemma simulate_custom_response_without_requestId :
  ¬ Stated.custom_simulation Sample.env Sample.custom Sample.world.
Proof.
  intros (fields & event & rid & Hres & _ & _ & _ & _ & _ & _ & _ & Hid).
  vm_compute in Hres. injection Hres as <-. discriminate Hid.
Qed.

(** C9 — whatever the [:type] parameter, the [switch] throws inside the
    [try], the handler's own [catch] answers 500 with [type] set to the
    parameter and [message] to the fault's message, and the request shows no
    [UNHANDLED_ERROR]: the handler never leaves a fault to the global error
    handler. *)
Theorem simulate_error_always_caught
    (e : Env) (req : Request) (type : string) (w : World) :
  ∃ err,
    simulate e type = Some err ∧
    (simulateError e req type w).2
      = Responded {| statusCode := 500;
                     body := VObj [("error", VStr "Simulated error");
                                   ("type", VStr type);
                                   ("message", VStr (message err))] |} ∧
    (∀ b, target req = SimulateError type →
          payload req = Parsed b →
          response e req w
            = Some {| statusCode := 500;
                      body := VObj [("error", VStr "Simulated error");
                                    ("type", VStr type);
                                    ("message", VStr (message err))] |} ∧
          count_event "UNHANDLED_ERROR" (emitted e req w) = 0%nat).
Proof.
  destruct (simulate_throws e type) as [err Hs]. exists err.
  split; [exact Hs|]. split.
  - by rewrite (simulateError_eq _ _ _ _ _ Hs).
  - intros b Ht Hp.
    destruct (simulateError_emitted e req type b w err Ht Hp Hs)
      as (Hres & r0 & r1 & r2 & r3 & -> & (F1 & _) & (_ & S1) & (_ & T1 & _) & (C1 & _)).
    split; [exact Hres|].
    rewrite !count_event_cons, S1, T1.
    assert (is_event "UNHANDLED_ERROR" r0 = false) as ->.
    { revert F1. unfold is_event. destruct (lookup_prop "event" r0) as [[]|]; try done.
      intros ->%String.eqb_eq. reflexivity. }
    assert (is_event "UNHANDLED_ERROR" r3 = false) as ->.
    { revert C1. unfold is_event. destruct (lookup_prop "event" r3) as [[]|]; try done.
      intros ->%String.eqb_eq. reflexivity. }
    reflexivity.
Qed.

Lemma simulate_error_always_caught_witness :
  count_event "UNHANDLED_ERROR" (emitted Sample.env Sample.custom Sample.world) = 0%nat.
Proof.
  destruct (simulate_error_always_caught Sample.env Sample.custom "custom" Sample.world)
    as (err & _ & _ & Hall).
  exact (proj2 (Hall (VObj []) eq_refl eq_refl)).
Defined.

(** The run of [POST /users] when validation finds exactly the username
    missing. *)
Lemma post_users_rejected (e : Env) (req : Request) (fields : obj) (w : World) :
  target req = PostUsers →
  payload req = Parsed (VObj fields) →
  validate (prop "username" fields) (prop "email" fields) (prop "age" fields)
    = Some ["Username is required"] →
  response e req w
    = Some {| statusCode := 400;
              body := VObj [("errors", VArr [VStr "Username is required"])] |} ∧
  users (app e req w).1 = users w ∧
  posts (app e req w).1 = posts w ∧
  ∃ received failed completed,
    emitted e req w = [received; failed; completed] ∧
    is_event "VALIDATION_FAILED" failed = true ∧
    has_level Logger.Warn failed = true ∧
    has_level Logger.Error received = false ∧
    has_level Logger.Error failed = false ∧
    has_level Logger.Error completed = false.
Proof.
  intros Ht Hp Hv.
  assert (Hr : route e (loggingMiddleware e req w).1.1 (VObj fields)
                 (loggingMiddleware e req w).2
               = postUsers e (loggingMiddleware e req w).1.1 (VObj fields)
                   (loggingMiddleware e req w).2).
  { unfold route. by rewrite target_entered, Ht. }
  unfold postUsers in Hr. simpl destructure in Hr. cbv iota in Hr.
  unfold field in Hr. rewrite Hv in Hr. simpl in Hr.
  unfold response, emitted. rewrite (app_routed e req w _ _ _ Hp Hr).
  split; [reflexivity|]. split; [reflexivity|]. split; [reflexivity|].
  eexists _, _, _. split.
  - simpl. unfold emitted_so_far.
    exact (drop_three (Logger.otlp (sinks w)) _ _ _).
  - repeat split; event_of_record.
Qed.

(** C7 — [POST /users] with an object body that has no [username], a truthy
    [email] and an [age] that passes the age check is answered 400 with
    [{errors: ["Username is required"]}]; the request logs the failure as
    [VALIDATION_FAILED] at level [warn], logs nothing at level [error], and
    leaves the users map as it was. *)
Theorem post_users_without_username
    (e : Env) (req : Request) (fields : obj) (w : World) :
  target req = PostUsers →
  payload req = Parsed (VObj fields) →
  lookup_prop "username" fields = None →
  truthy (prop "email" fields) = true →
  invalidAge (prop "age" fields) = Some false →
  response e req w
    = Some {| statusCode := 400;
              body := VObj [("errors", VArr [VStr "Username is required"])] |} ∧
  users (app e req w).1 = users w ∧
  (∃ received failed completed,
     emitted e req w = [received; failed; completed] ∧
     is_event "VALIDATION_FAILED" failed = true ∧
     has_level Logger.Warn failed = true) ∧
  (∀ r, r ∈ emitted e req w → has_level Logger.Error r = false).
Proof.
  intros Ht Hp Hu He Ha.
  assert (Hv : validate (prop "username" fields) (prop "email" fields) (prop "age" fields)
               = Some ["Username is required"]).
  { rewrite validate_eq, Ha. unfold prop at 1. rewrite Hu, He. reflexivity. }
  destruct (post_users_rejected e req fields w Ht Hp Hv)
    as (Hres & Husers & _ & r0 & r1 & r2 & Hem & ? & ? & ? & ? & ?).
  split; [exact Hres|]. split; [exact Husers|]. rewrite Hem. split.
  - by exists r0, r1, r2.
  - intros r Hr. rewrite !elem_of_cons, elem_of_nil in Hr.
    destruct Hr as [->|[->|[->|[]]]]; done.
Qed.

Lemma post_users_without_username_witness :
  response Sample.env Sample.no_username Sample.world
  = Some {| statusCode := 400;
            body := VObj [("errors", VArr [VStr "Username is required"])] |}.
Proof.
  exact (proj1 (post_users_without_username Sample.env Sample.no_username
                  [("email", VStr "b@c.com"); ("age", VNum 25)] Sample.world
                  eq_refl eq_refl eq_refl eq_refl eq_refl)).
Defined.

(** C8 — [POST /posts] whose body can be destructured and whose [userId] is
    not a key of the users map is answered 404 with
    [{error: "User not found"}], and both maps stay as they were. *)
Theorem post_posts_unknown_user (e : Env) (req : Request) (b : value) (w : World) :
  target req = PostPosts →
  payload req = Parsed b →
  b ≠ VUndef → b ≠ VNull →
  (∀ s, field "userId" b = VStr s → users w !! s = None) →
  response e req w
    = Some {| statusCode := 404; body := VObj [("error", VStr "User not found")] |} ∧
  posts (app e req w).1 = posts w ∧
  users (app e req w).1 = users w.
Proof.
  intros Ht Hp Hundef Hnull Hkey.
  assert (Hhas : has (users w) (field "userId" b) = false).
  { unfold has. destruct (field "userId" b) as [| | | |s| |]; try done.
    rewrite (Hkey s eq_refl). apply bool_decide_eq_false. by intros [? ?]. }
  assert (Hr : route e (loggingMiddleware e req w).1.1 b (loggingMiddleware e req w).2
               = postPosts e (loggingMiddleware e req w).1.1 b
                   (loggingMiddleware e req w).2).
  { unfold route. by rewrite target_entered, Ht. }
  unfold postPosts in Hr.
  assert (destructure e "userId" b = None) as Hd by (by destruct b).
  rewrite Hd in Hr.
  change (users (loggingMiddleware e req w).2) with (users w) in Hr.
  rewrite Hhas in Hr. simpl in Hr.
  unfold response. rewrite (app_routed e req w _ _ _ Hp Hr).
  repeat split; reflexivity.
Qed.

Lemma post_posts_unknown_user_witness :
  response Sample.env Sample.unknown_user Sample.world
  = Some {| statusCode := 404; body := VObj [("error", VStr "User not found")] |}.
Proof.
  refine (proj1 (post_posts_unknown_user Sample.env Sample.unknown_user _ Sample.world
                   eq_refl eq_refl _ _ _)).
  - discriminate.
  - discriminate.
  - intros s _. reflexivity.
Defined.

(** The run of [POST /users] when the age check throws. *)
Lemma post_users_age_throws (e : Env) (req : Request) (fields : obj) (w : World) :
  target req = PostUsers →
  payload req = Parsed (VObj fields) →
  validate (prop "username" fields) (prop "email" fields) (prop "age" fields) = None →
  response e req w
    = Some {| statusCode := 500;
              body := VObj [("error", VStr "Failed to create user")] |} ∧
  users (app e req w).1 = users w ∧
  posts (app e req w).1 = posts w ∧
  ∃ received failed completed,
    emitted e req w = [received; failed; completed] ∧
    is_event "USER_CREATION_ERROR" failed = true ∧
    has_level Logger.Error failed = true ∧
    lookup_prop "error" failed
      = Some (VStr "Cannot convert object to primitive value").
Proof.
  intros Ht Hp Hv.
  assert (Hr : route e (loggingMiddleware e req w).1.1 (VObj fields)
                 (loggingMiddleware e req w).2
               = postUsers e (loggingMiddleware e req w).1.1 (VObj fields)
                   (loggingMiddleware e req w).2).
  { unfold route. by rewrite target_entered, Ht. }
  unfold postUsers in Hr. simpl destructure in Hr. cbv iota in Hr.
  unfold field in Hr. rewrite Hv in Hr. simpl in Hr.
  unfold response, emitted. rewrite (app_routed e req w _ _ _ Hp Hr).
  split; [reflexivity|]. split; [reflexivity|]. split; [reflexivity|].
  eexists _, _, _. split.
  - simpl. unfold emitted_so_far.
    exact (drop_three (Logger.otlp (sinks w)) _ _ _).
  - repeat split; event_of_record.
Qed.





(* ===================================================================== *)
(** ** Further properties of the logger *)
(* ===================================================================== *)

Lemma lookup_record_service (a : Logger.Ambient) (l : Logger.level) (msg : obj) :
  lookup_prop "service" (Logger.record a l msg) = Some (VStr "nodejs-signoz-service").
Proof.
  unfold Logger.record, Logger.loggerFormat, Logger.errorsFormat, Logger.timestampFormat.
  rewrite lookup_set_prop_ne by done.
  rewrite lookup_traceFormat by done.
  unfold Logger.level_method. simpl. apply lookup_set_prop_eq.
Qed.

(** The level, the service name and the timestamp of a record are the
    logger's: whatever the caller put under [level], [service] or
    [timestamp] is replaced by the method's level, by [defaultMeta] and by
    the logger's own clock. *)
Theorem record_reserved_fields (a : Logger.Ambient) (l : Logger.level) (msg : obj) :
  lookup_prop "level" (Logger.record a l msg) = Some (VStr (Logger.level_name l)) ∧
  lookup_prop "service" (Logger.record a l msg) = Some (VStr "nodejs-signoz-service") ∧
  lookup_prop "timestamp" (Logger.record a l msg) = Some (VStr (Logger.clock a)).
Proof.
  split; [apply lookup_record_level|].
  split; [apply lookup_record_service | apply lookup_record_timestamp].
Qed.

(** Only [silly] is below the logger's [debug] threshold: a [silly] call
    reaches neither transport, a call at any other level adds exactly one
    entry to each, so the two transports always hold equally many entries. *)
Theorem transports_in_step
    (a : Logger.Ambient) (l : Logger.level) (msg : obj) (s : Logger.Sinks) :
  (l = Logger.Silly →
   Logger.otlp (Logger.log a l msg s) = Logger.otlp s ∧
   Logger.stdout (Logger.log a l msg s) = Logger.stdout s) ∧
  (l ≠ Logger.Silly →
   Logger.otlp (Logger.log a l msg s) = Logger.otlp s ++ [Logger.record a l msg] ∧
   Logger.stdout (Logger.log a l msg s)
     = Logger.stdout s ++ [Logger.consoleFormat a l (Logger.record a l msg)]) ∧
  (length (Logger.otlp s) = length (Logger.stdout s) →
   length (Logger.otlp (Logger.log a l msg s))
   = length (Logger.stdout (Logger.log a l msg s))).
Proof.
  split; [|split].
  - intros ->. split; reflexivity.
  - intros Hl. assert (Logger.enabled l = true) by (by destruct l).
    split; [by apply otlp_log | by apply stdout_log].
  - intros Hlen. unfold Logger.log. simpl.
    destruct (Logger.enabled l); [|done].
    rewrite !length_app. simpl. lia.
Qed.

Lemma transports_in_step_witness :
  Logger.otlp (Logger.log Sample.traced Logger.Debug Sample.user_created
                 (Logger.Build_Sinks [] []))
  = [Logger.record Sample.traced Logger.Debug Sample.user_created] ∧
  Logger.otlp (Logger.log Sample.traced Logger.Silly Sample.user_created
                 (Logger.Build_Sinks [] [])) = [].
Proof.
  split.
  - refine (proj1 (proj1 (proj2 (transports_in_step Sample.traced Logger.Debug
                                   Sample.user_created (Logger.Build_Sinks [] []))) _)).
    discriminate.
  - exact (proj1 (proj1 (transports_in_step Sample.traced Logger.Silly
                           Sample.user_created (Logger.Build_Sinks [] [])) eq_refl)).
Defined.

(** What the logger adds to a record never shows in the attribute block. *)
Lemma shown_of_record (a : Logger.Ambient) (l : Logger.level) (msg : obj) :
  truthy (prop "message" msg) = true →
  rest_without ["level"; "message"; "timestamp"; "event";
                "trace_id"; "span_id"; "trace_flags"; "service"]
    (Logger.record a l msg)
  = rest_without ["level"; "message"; "timestamp"; "event";
                  "trace_id"; "span_id"; "trace_flags"; "service"] msg.
Proof.
  intros Hm.
  unfold Logger.record, Logger.loggerFormat, Logger.errorsFormat, Logger.timestampFormat,
    Logger.traceFormat, Logger.level_method.
  rewrite Hm. simpl fold_left.
  destruct (Logger.active_span a); by rewrite !rest_without_set_prop.
Qed.


Lemma consoleFormat_record (a : Logger.Ambient) (l : Logger.level) (msg : obj) :
  truthy (prop "message" msg) = true →
  Logger.consoleFormat a l (Logger.record a l msg)
  = Logger.clock a +:+ " [" +:+ Logger.paint a (Logger.level_name l) +:+ "] "
      +:+ ToString (prop "event" msg) +:+ ": " +:+ ToString (prop "message" msg)
      +:+ (if (0 <? Z.of_nat (length
                   (rest_without ["level"; "message"; "timestamp"; "event";
                                  "trace_id"; "span_id"; "trace_flags"; "service"] msg)))
           then LF +:+ "  " +:+ replace_newlines (LF +:+ "  ")
                  (stringify2 (VObj
                     (rest_without ["level"; "message"; "timestamp"; "event";
                                    "trace_id"; "span_id"; "trace_flags"; "service"] msg)))
           else EmptyString).
Proof.
  intros Hm. unfold Logger.consoleFormat, Logger.prettyLog.
  rewrite cleanMeta_colorized, shown_of_record by done.
  unfold prop, Logger.colorizeFormat.
  rewrite lookup_set_prop_eq.
  rewrite !lookup_set_prop_ne by done.
  rewrite lookup_record_timestamp.
  rewrite !lookup_record by done.
  reflexivity.
Qed.



(* ===================================================================== *)
(** ** Further properties of the application *)
(* ===================================================================== *)

Ltac field_of_record :=
  unfold lifecycle_event, is_event, has_level;
  rewrite ?lookup_record_level, ?lookup_record_service;
  rewrite ?lookup_record by reflexivity;
  reflexivity.

Ltac handler_case :=
  eexists _, _, _; (split; [reflexivity|]);
  (split; [rewrite !otlp_emit by done; rewrite <- ?app_assoc; reflexivity|]);
  (split; [repeat constructor; field_of_record|]).

(** What every route does, whatever the request: it answers, with one of five
    status codes and a body without a stack trace; what it logs carries the
    request's [requestId]; and it leaves the two maps alone except under the
    fresh id of a 201 answer. *)
Lemma route_run (e : Env) (req : Request) (b : value) (w : World) :
  ∃ w' res recs,
    route e req b w = (w', Responded res) ∧
    Logger.otlp (sinks w') = Logger.otlp (sinks w) ++ recs ∧
    Forall (λ r, lifecycle_event r = false ∧
                 lookup_prop "requestId" r = Some (requestId req) ∧
                 lookup_prop "service" r = Some (VStr "nodejs-signoz-service") ∧
                 has_level Logger.Error r || has_level Logger.Warn r
                   || has_level Logger.Info r = true) recs ∧
    statusCode res ∈ [200; 201; 400; 404; 500] ∧
    (∃ fs, body res = VObj fs ∧ lookup_prop "stack" fs = None) ∧
    (statusCode res ≠ 201 → users w' = users w ∧ posts w' = posts w) ∧
    (∀ k, k ≠ uuid_entity e →
          users w' !! k = users w !! k ∧ posts w' !! k = posts w !! k).
Proof.
  unfold route. destruct (target req) as [| |scenario|type|].
  - unfold postUsers. destruct (destructure e "username" b).
    + handler_case. split; [set_solver|]. split; [by eexists|]. done.
    + destruct (validate _ _ _) as [found|].
      * destruct (0 <? _).
        -- handler_case. split; [set_solver|]. split; [by eexists|]. done.
        -- handler_case. split; [set_solver|]. split; [by eexists|].
           split; [done|]. intros k Hk. simpl. by rewrite lookup_insert_ne.
      * handler_case. split; [set_solver|]. split; [by eexists|]. done.
  - unfold postPosts. destruct (destructure e "userId" b).
    + handler_case. split; [set_solver|]. split; [by eexists|]. done.
    + destruct (negb _).
      * handler_case. split; [set_solver|]. split; [by eexists|]. done.
      * handler_case. split; [set_solver|]. split; [by eexists|].
        split; [done|]. intros k Hk. simpl. by rewrite lookup_insert_ne.
  - unfold performanceTest. destruct (runScenario e scenario).
    + handler_case. split; [set_solver|]. split; [by eexists|]. done.
    + handler_case. split; [set_solver|]. split; [by eexists|]. done.
  - unfold simulateError, simulate.
    repeat match goal with |- context [if ?c then _ else _] => destruct c end.
    all: handler_case; (split; [set_solver|]); (split; [by eexists|]); done.
  - unfold healthCheck.
    handler_case. split; [set_solver|]. split; [by eexists|]. done.
Qed.

Lemma requestId_or_unknown_entered (e : Env) (req : Request) (w : World) :
  uuid_request e ≠ EmptyString →
  requestId_or_unknown (loggingMiddleware e req w).1.1 = VStr (uuid_request e).
Proof.
  intros H. unfold requestId_or_unknown. rewrite requestId_entered. simpl.
  by apply String.eqb_neq in H as ->.
Qed.

(** One request through the whole stack. *)
Lemma app_run (e : Env) (req : Request) (w : World) :
  ∃ res first mid final,
    response e req w = Some res ∧
    emitted e req w = first :: mid ++ [final] ∧
    is_event "REQUEST_COMPLETED" final = true ∧
    lookup_prop "statusCode" final = Some (VNum (statusCode res)) ∧
    Forall (λ r, (uuid_request e ≠ EmptyString →
                  lookup_prop "requestId" r = Some (VStr (uuid_request e))) ∧
                 lookup_prop "service" r = Some (VStr "nodejs-signoz-service") ∧
                 has_level Logger.Error r || has_level Logger.Warn r
                   || has_level Logger.Info r = true)
           (first :: mid ++ [final]) ∧
    statusCode res ∈ [200; 201; 400; 404; 500] ∧
    (∃ fs, body res = VObj fs ∧ lookup_prop "stack" fs = None) ∧
    (statusCode res ≠ 201 →
     users (app e req w).1 = users w ∧ posts (app e req w).1 = posts w) ∧
    (∀ k, k ≠ uuid_entity e →
          users (app e req w).1 !! k = users w !! k ∧
          posts (app e req w).1 !! k = posts w !! k).
Proof.
  unfold emitted, response.
  destruct (payload req) as [b|err] eqn:Hp.
  - destruct (route_run e (loggingMiddleware e req w).1.1 b
                (loggingMiddleware e req w).2)
      as (w' & res & recs & Hr & Hs & Hrecs & Hstatus & Hbody & Hsame & Hkeys).
    rewrite (app_routed e req w b w' res Hp Hr).
    eexists res, _, recs, _. split; [reflexivity|]. split.
    { simpl. rewrite Hs. simpl.
      rewrite <- !app_assoc. unfold emitted_so_far at 1.
      rewrite drop_app_length. reflexivity. }
    split; [field_of_record|]. split; [field_of_record|].
    split; [|done].
    apply Forall_cons. split; [repeat split; field_of_record|].
    apply Forall_app. split.
    + eapply Forall_impl; [exact Hrecs|]. intros r (_ & Hid & Hsvc & Hlvl).
      rewrite requestId_entered in Hid. done.
    + repeat constructor; field_of_record.
  - rewrite (app_malformed e req w err Hp).
    eexists _, _, [_], _. split; [reflexivity|]. split.
    { simpl. unfold emitted_so_far.
      exact (drop_three (Logger.otlp (sinks w)) _ _ _). }
    split; [field_of_record|]. split; [field_of_record|].
    split.
    { repeat constructor; try field_of_record.
      intros Huuid. rewrite lookup_record by reflexivity. simpl.
      unfold requestId_or_unknown. simpl.
      by apply String.eqb_neq in Huuid as ->. }
    split; [set_solver|]. split; [by eexists|]. done.
Qed.

(** Every request is answered, with status 200, 201, 400, 404 or 500, and
    the [REQUEST_COMPLETED] record that closes its log carries that very
    status code. *)
Theorem every_request_answered (e : Env) (req : Request) (w : World) :
  ∃ res completed,
    response e req w = Some res ∧
    statusCode res ∈ [200; 201; 400; 404; 500] ∧
    last (emitted e req w) = Some completed ∧
    is_event "REQUEST_COMPLETED" completed = true ∧
    lookup_prop "statusCode" completed = Some (VNum (statusCode res)).
Proof.
  destruct (app_run e req w)
    as (res & first & mid & final & Hres & -> & Hev & Hcode & _ & Hstatus & _).
  exists res, final. repeat split; try done.
  rewrite app_comm_cons. apply last_snoc.
Qed.

(** No response body has a [stack] field: stack traces go to the log
    only. *)
Theorem no_stack_in_response (e : Env) (req : Request) (w : World) :
  ∃ res fields,
    response e req w = Some res ∧
    body res = VObj fields ∧
    lookup_prop "stack" fields = None.
Proof.
  destruct (app_run e req w)
    as (res & _ & _ & _ & Hres & _ & _ & _ & _ & _ & (fs & Hfs & Hstack) & _).
  by exists res, fs.
Qed.

(** A request changes the users and posts maps only when it is answered 201,
    and then only under the id drawn for the new entity: every other key
    keeps its value in both maps. *)
Theorem maps_change_only_on_creation (e : Env) (req : Request) (w : World) :
  (∀ res, response e req w = Some res →
          statusCode res ≠ 201 →
          users (app e req w).1 = users w ∧ posts (app e req w).1 = posts w) ∧
  (∀ k, k ≠ uuid_entity e →
        users (app e req w).1 !! k = users w !! k ∧
        posts (app e req w).1 !! k = posts w !! k).
Proof.
  destruct (app_run e req w)
    as (res & _ & _ & _ & Hres & _ & _ & _ & _ & _ & _ & Hsame & Hkeys).
  split; [|exact Hkeys].
  intros res' Hres' Hne. rewrite Hres in Hres'. injection Hres' as <-. by apply Hsame.
Qed.

Lemma maps_change_only_on_creation_witness :
  users (app Sample.env Sample.custom Sample.world).1 = users Sample.world ∧
  posts (app Sample.env Sample.no_username Sample.world).1 !! "some-other-id"
  = posts Sample.world !! "some-other-id".
Proof.
  split.
  - refine (proj1 (proj1 (maps_change_only_on_creation Sample.env Sample.custom
                            Sample.world) _ eq_refl _)).
    simpl. discriminate.
  - refine (proj2 (proj2 (maps_change_only_on_creation Sample.env Sample.no_username
                            Sample.world) "some-other-id" _)).
    discriminate.
Defined.

(** Every record a request puts in the log, whichever handler wrote it,
    carries the request's uuid as [requestId], the service name, and one of
    the levels [error], [warn] or [info]. *)
Theorem records_of_a_request_are_correlated (e : Env) (req : Request) (w : World) :
  uuid_request e ≠ EmptyString →
  ∀ r, r ∈ emitted e req w →
       lookup_prop "requestId" r = Some (VStr (uuid_request e)) ∧
       lookup_prop "service" r = Some (VStr "nodejs-signoz-service") ∧
       has_level Logger.Error r || has_level Logger.Warn r
         || has_level Logger.Info r = true.
Proof.
  intros Huuid r Hr.
  destruct (app_run e req w)
    as (res & first & mid & final & _ & Hem & _ & _ & Hall & _).
  rewrite Hem in Hr. rewrite Forall_forall in Hall.
  destruct (Hall r Hr) as (Hid & Hsvc & Hlvl). auto.
Qed.

Lemma records_of_a_request_are_correlated_witness :
  Forall (λ r, lookup_prop "requestId" r = Some (VStr (uuid_request Sample.env)))
    (emitted Sample.env Sample.malformed Sample.world).
Proof.
  apply Forall_forall. intros r Hr.
  refine (proj1 (records_of_a_request_are_correlated Sample.env Sample.malformed
                   Sample.world _ r Hr)).
  discriminate.
Defined.

(** *** POST /users *)

Lemma route_post_users (e : Env) (req : Request) (b : value) (w : World) :
  target req = PostUsers →
  route e (loggingMiddleware e req w).1.1 b (loggingMiddleware e req w).2
  = postUsers e (loggingMiddleware e req w).1.1 b (loggingMiddleware e req w).2.
Proof. intros Ht. unfold route. by rewrite target_entered, Ht. Qed.

Lemma route_post_posts (e : Env) (req : Request) (b : value) (w : World) :
  target req = PostPosts →
  route e (loggingMiddleware e req w).1.1 b (loggingMiddleware e req w).2
  = postPosts e (loggingMiddleware e req w).1.1 b (loggingMiddleware e req w).2.
Proof. intros Ht. unfold route. by rewrite target_entered, Ht. Qed.

Lemma validate_nil_iff (username email age : value) :
  validate username email age = Some [] ↔
  truthy username = true ∧ truthy email = true ∧ invalidAge age = Some false.
Proof.
  rewrite validate_eq.
  destruct (truthy username), (truthy email), (invalidAge age) as [[|]|];
    simpl; split; try done; intros (? & ? & ?); done.
Qed.

Lemma post_users_stored (e : Env) (req : Request) (fields : obj) (w : World) :
  target req = PostUsers →
  payload req = Parsed (VObj fields) →
  truthy (prop "username" fields) = true →
  truthy (prop "email" fields) = true →
  invalidAge (prop "age" fields) = Some false →
  ∃ createdAt received created completed,
    response e req w
      = Some {| statusCode := 201;
                body := VObj [("id", VStr (uuid_entity e));
                              ("username", prop "username" fields);
                              ("email", prop "email" fields);
                              ("age", prop "age" fields);
                              ("createdAt", VStr createdAt)] |} ∧
    users (app e req w).1 !! uuid_entity e
      = Some (VObj [("id", VStr (uuid_entity e));
                    ("username", prop "username" fields);
                    ("email", prop "email" fields);
                    ("age", prop "age" fields);
                    ("createdAt", VStr createdAt)]) ∧
    posts (app e req w).1 = posts w ∧
    emitted e req w = [received; created; completed] ∧
    is_event "USER_CREATED" created = true ∧
    has_level Logger.Info created = true ∧
    lookup_prop "userId" created = Some (VStr (uuid_entity e)).
Proof.
  intros Ht Hp Hu He Ha.
  assert (Hv : validate (prop "username" fields) (prop "email" fields)
                 (prop "age" fields) = Some []) by (by apply validate_nil_iff).
  pose proof (route_post_users e req (VObj fields) w Ht) as Hr.
  unfold postUsers in Hr. simpl destructure in Hr. cbv iota in Hr.
  unfold field in Hr. rewrite Hv in Hr. simpl in Hr.
  unfold response, emitted. rewrite (app_routed e req w _ _ _ Hp Hr).
  eexists _, _, _, _. split; [reflexivity|].
  split; [simpl; apply lookup_insert_eq|].
  split; [reflexivity|]. split.
  - simpl. unfold emitted_so_far.
    exact (drop_three (Logger.otlp (sinks w)) _ _ _).
  - repeat split; field_of_record.
Qed.

(** [POST /users] with an object body that passes validation is answered 201
    with the stored user: the entry is put in the users map under the fresh
    id (reading that id back gives the response body), the posts map is left
    alone, and [USER_CREATED] is logged with the id. *)
Theorem post_users_created (e : Env) (req : Request) (fields : obj) (w : World) :
  target req = PostUsers →
  payload req = Parsed (VObj fields) →
  truthy (prop "username" fields) = true →
  truthy (prop "email" fields) = true →
  invalidAge (prop "age" fields) = Some false →
  ∃ createdAt received created completed,
    response e req w
      = Some {| statusCode := 201;
                body := VObj [("id", VStr (uuid_entity e));
                              ("username", prop "username" fields);
                              ("email", prop "email" fields);
                              ("age", prop "age" fields);
                              ("createdAt", VStr createdAt)] |} ∧
    users (app e req w).1 !! uuid_entity e
      = Some (VObj [("id", VStr (uuid_entity e));
                    ("username", prop "username" fields);
                    ("email", prop "email" fields);
                    ("age", prop "age" fields);
                    ("createdAt", VStr createdAt)]) ∧
    posts (app e req w).1 = posts w ∧
    emitted e req w = [received; created; completed] ∧
    is_event "USER_CREATED" created = true ∧
    has_level Logger.Info created = true ∧
    lookup_prop "userId" created = Some (VStr (uuid_entity e)).
Proof. apply post_users_stored. Qed.

Lemma post_users_created_witness :
  ∃ user,
    users (app Sample.env
             (Sample.request "POST" "/users"
                (Parsed (VObj [("username", VStr "a"); ("email", VStr "b@c.com");
                               ("age", VNum 25)])) PostUsers)
             Sample.world).1 !! uuid_entity Sample.env = Some user.
Proof.
  destruct (post_users_created Sample.env
              (Sample.request "POST" "/users"
                 (Parsed (VObj [("username", VStr "a"); ("email", VStr "b@c.com");
                                ("age", VNum 25)])) PostUsers)
              [("username", VStr "a"); ("email", VStr "b@c.com"); ("age", VNum 25)]
              Sample.world eq_refl eq_refl eq_refl eq_refl eq_refl)
    as (createdAt & _ & _ & _ & _ & Hstored & _).
  eexists. exact Hstored.
Defined.

Lemma post_users_refused
    (e : Env) (req : Request) (fields : obj) (errors : list string) (w : World) :
  target req = PostUsers →
  payload req = Parsed (VObj fields) →
  validate (prop "username" fields) (prop "email" fields) (prop "age" fields)
    = Some errors →
  errors ≠ [] →
  ∃ received failed completed,
    response e req w
      = Some {| statusCode := 400;
                body := VObj [("errors", VArr (map VStr errors))] |} ∧
    users (app e req w).1 = users w ∧
    posts (app e req w).1 = posts w ∧
    emitted e req w = [received; failed; completed] ∧
    is_event "VALIDATION_FAILED" failed = true ∧
    has_level Logger.Warn failed = true ∧
    lookup_prop "errors" failed = Some (VArr (map VStr errors)) ∧
    lookup_prop "userData" failed
      = Some (VObj [("username", prop "username" fields);
                    ("email", prop "email" fields);
                    ("age", prop "age" fields)]).
Proof.
  intros Ht Hp Hval Hne.
  pose proof (route_post_users e req (VObj fields) w Ht) as Hr.
  unfold postUsers in Hr. simpl destructure in Hr. cbv iota in Hr.
  unfold field in Hr. rewrite Hval in Hr.
  destruct errors as [|m errs]; [done|].
  change (0 <? Z.of_nat (length (m :: errs))) with true in Hr. cbv iota in Hr.
  unfold response, emitted. rewrite (app_routed e req w _ _ _ Hp Hr).
  eexists _, _, _. split; [reflexivity|].
  split; [reflexivity|]. split; [reflexivity|]. split.
  - simpl. unfold emitted_so_far.
    exact (drop_three (Logger.otlp (sinks w)) _ _ _).
  - repeat split; field_of_record.
Qed.

(** [POST /users] with an object body for which validation returns a
    non-empty list of messages is answered 400 with all the messages found,
    in order; the failure is logged at [warn]
    with the messages and an echo of the three fields, and neither map
    changes. *)
Theorem post_users_rejected_with_all_errors
    (e : Env) (req : Request) (fields : obj) (errors : list string) (w : World) :
  target req = PostUsers →
  payload req = Parsed (VObj fields) →
  validate (prop "username" fields) (prop "email" fields) (prop "age" fields)
    = Some errors →
  errors ≠ [] →
  ∃ received failed completed,
    response e req w
      = Some {| statusCode := 400;
                body := VObj [("errors", VArr (map VStr errors))] |} ∧
    users (app e req w).1 = users w ∧
    posts (app e req w).1 = posts w ∧
    emitted e req w = [received; failed; completed] ∧
    is_event "VALIDATION_FAILED" failed = true ∧
    has_level Logger.Warn failed = true ∧
    lookup_prop "errors" failed = Some (VArr (map VStr errors)) ∧
    lookup_prop "userData" failed
      = Some (VObj [("username", prop "username" fields);
                    ("email", prop "email" fields);
                    ("age", prop "age" fields)]).
Proof. apply post_users_refused. Qed.

Lemma post_users_rejected_with_all_errors_witness :
  response Sample.env
    (Sample.request "POST" "/users" (Parsed (VObj [("age", VStr "abc")])) PostUsers)
    Sample.world
  = Some {| statusCode := 400;
            body := VObj [("errors", VArr [VStr "Username is required";
                                           VStr "Email is required";
                                           VStr "Invalid age"])] |}.
Proof.
  destruct (post_users_rejected_with_all_errors Sample.env
              (Sample.request "POST" "/users" (Parsed (VObj [("age", VStr "abc")]))
                 PostUsers)
              [("age", VStr "abc")]
              ["Username is required"; "Email is required"; "Invalid age"]
              Sample.world eq_refl eq_refl eq_refl)
    as (_ & _ & _ & Hres & _).
  - discriminate.
  - exact Hres.
Defined.

(** A [POST] whose [req.body] is [undefined] or [null] makes the
    destructuring throw; the handler's own [catch] answers 500 with a fixed
    message, logs the fault at [error] with its stack, and changes neither
    map; the global error handler is not involved. *)
Theorem post_without_body_is_caught (e : Env) (req : Request) (b : value) (w : World) :
  payload req = Parsed b →
  b = VUndef ∨ b = VNull →
  target req = PostUsers ∨ target req = PostPosts →
  ∃ received failed completed,
    response e req w
      = Some {| statusCode := 500;
                body := VObj [("error",
                               VStr (match target req with
                                     | PostPosts => "Failed to create post"
                                     | _ => "Failed to create user"
                                     end))] |} ∧
    emitted e req w = [received; failed; completed] ∧
    is_event (match target req with
              | PostPosts => "POST_CREATION_ERROR"
              | _ => "USER_CREATION_ERROR"
              end) failed = true ∧
    has_level Logger.Error failed = true ∧
    (∃ text, lookup_prop "stack" failed = Some (VStr text)) ∧
    count_event "UNHANDLED_ERROR" (emitted e req w) = 0%nat ∧
    users (app e req w).1 = users w ∧
    posts (app e req w).1 = posts w.
Proof.
  intros Hp Hb Ht.
  destruct Ht as [Ht|Ht]; rewrite Ht.
  - pose proof (route_post_users e req b w Ht) as Hr.
    unfold postUsers in Hr.
    destruct Hb as [-> | ->]; simpl in Hr;
      unfold response, emitted; rewrite (app_routed e req w _ _ _ Hp Hr);
      eexists _, _, _; (split; [reflexivity|]);
      (split; [simpl; unfold emitted_so_far;
               exact (drop_three (Logger.otlp (sinks w)) _ _ _)|]);
      simpl drop; unfold emitted_so_far; rewrite drop_three;
      rewrite !count_event_cons;
      repeat split; try (eexists; field_of_record); field_of_record.
  - pose proof (route_post_posts e req b w Ht) as Hr.
    unfold postPosts in Hr.
    destruct Hb as [-> | ->]; simpl in Hr;
      unfold response, emitted; rewrite (app_routed e req w _ _ _ Hp Hr);
      eexists _, _, _; (split; [reflexivity|]);
      (split; [simpl; unfold emitted_so_far;
               exact (drop_three (Logger.otlp (sinks w)) _ _ _)|]);
      simpl drop; unfold emitted_so_far; rewrite drop_three;
      rewrite !count_event_cons;
      repeat split; try (eexists; field_of_record); field_of_record.
Qed.

Lemma post_without_body_is_caught_witness :
  response Sample.env (Sample.request "POST" "/posts" (Parsed VUndef) PostPosts)
    Sample.world
  = Some {| statusCode := 500;
            body := VObj [("error", VStr "Failed to create post")] |}.
Proof.
  destruct (post_without_body_is_caught Sample.env
              (Sample.request "POST" "/posts" (Parsed VUndef) PostPosts)
              VUndef Sample.world eq_refl (or_introl eq_refl) (or_intror eq_refl))
    as (_ & _ & _ & Hres & _).
  exact Hres.
Defined.

(** *** POST /posts *)

Lemma post_posts_stored
    (e : Env) (req : Request) (fields : obj) (w : World) (userId : string) :
  target req = PostPosts →
  payload req = Parsed (VObj fields) →
  prop "userId" fields = VStr userId →
  is_Some (users w !! userId) →
  ∃ createdAt received created completed,
    response e req w
      = Some {| statusCode := 201;
                body := VObj [("id", VStr (uuid_entity e));
                              ("userId", VStr userId);
                              ("title", prop "title" fields);
                              ("content", prop "content" fields);
                              ("createdAt", VStr createdAt);
                              ("likes", VNum 0)] |} ∧
    posts (app e req w).1 !! uuid_entity e
      = Some (VObj [("id", VStr (uuid_entity e));
                    ("userId", VStr userId);
                    ("title", prop "title" fields);
                    ("content", prop "content" fields);
                    ("createdAt", VStr createdAt);
                    ("likes", VNum 0)]) ∧
    users (app e req w).1 = users w ∧
    emitted e req w = [received; created; completed] ∧
    is_event "POST_CREATED" created = true ∧
    lookup_prop "postId" created = Some (VStr (uuid_entity e)) ∧
    lookup_prop "userId" created = Some (VStr userId).
Proof.
  intros Ht Hp Hid Huser.
  pose proof (route_post_posts e req (VObj fields) w Ht) as Hr.
  unfold postPosts in Hr. simpl destructure in Hr. cbv iota in Hr.
  unfold field in Hr. rewrite Hid in Hr.
  change (users (loggingMiddleware e req w).2) with (users w) in Hr.
  assert (has (users w) (VStr userId) = true) as Hhas
    by (by apply bool_decide_eq_true).
  rewrite Hhas in Hr. simpl in Hr.
  unfold response, emitted. rewrite (app_routed e req w _ _ _ Hp Hr).
  eexists _, _, _, _. split; [reflexivity|].
  split; [simpl; apply lookup_insert_eq|].
  split; [reflexivity|]. split.
  - simpl. unfold emitted_so_far.
    exact (drop_three (Logger.otlp (sinks w)) _ _ _).
  - repeat split; field_of_record.
Qed.

(** [POST /posts] naming a stored user is answered 201 with the new post,
    [likes] at 0, whatever [title] and [content] are (they are not checked,
    so they may be missing); the post is put in the posts map under the fresh
    id and the users map is left alone. *)
Theorem post_posts_created
    (e : Env) (req : Request) (fields : obj) (w : World) (userId : string) :
  target req = PostPosts →
  payload req = Parsed (VObj fields) →
  prop "userId" fields = VStr userId →
  is_Some (users w !! userId) →
  ∃ createdAt received created completed,
    response e req w
      = Some {| statusCode := 201;
                body := VObj [("id", VStr (uuid_entity e));
                              ("userId", VStr userId);
                              ("title", prop "title" fields);
                              ("content", prop "content" fields);
                              ("createdAt", VStr createdAt);
                              ("likes", VNum 0)] |} ∧
    posts (app e req w).1 !! uuid_entity e
      = Some (VObj [("id", VStr (uuid_entity e));
                    ("userId", VStr userId);
                    ("title", prop "title" fields);
                    ("content", prop "content" fields);
                    ("createdAt", VStr createdAt);
                    ("likes", VNum 0)]) ∧
    users (app e req w).1 = users w ∧
    emitted e req w = [received; created; completed] ∧
    is_event "POST_CREATED" created = true ∧
    lookup_prop "postId" created = Some (VStr (uuid_entity e)) ∧
    lookup_prop "userId" created = Some (VStr userId).
Proof. apply post_posts_stored. Qed.

Lemma post_posts_created_witness :
  ∃ res,
    response Sample.later Sample.unknown_user
      (app Sample.env Sample.new_user Sample.world).1 = Some res ∧
    statusCode res = 201.
Proof.
  destruct (post_posts_created Sample.later Sample.unknown_user
              [("userId", VStr "44c4d46f-5a25-438c-853a-0b1f6a1c2d3e");
               ("title", VStr "Test Post");
               ("content", VStr "Post content")]
              (app Sample.env Sample.new_user Sample.world).1
              "44c4d46f-5a25-438c-853a-0b1f6a1c2d3e" eq_refl eq_refl eq_refl)
    as (createdAt & _ & _ & _ & Hres & _).
  - vm_compute. eexists. reflexivity.
  - eexists. split; [exact Hres|reflexivity].
Defined.

(** A user created by one request can be posted for by a later one: after a
    201 answer to [POST /users], a [POST /posts] whose [userId] is the [id]
    of that answer is itself answered 201, and the post it stores names that
    user. *)
Theorem post_for_created_user
    (e1 e2 : Env) (req1 req2 : Request) (fields1 fields2 : obj) (w : World) :
  target req1 = PostUsers →
  payload req1 = Parsed (VObj fields1) →
  truthy (prop "username" fields1) = true →
  truthy (prop "email" fields1) = true →
  invalidAge (prop "age" fields1) = Some false →
  target req2 = PostPosts →
  payload req2 = Parsed (VObj fields2) →
  prop "userId" fields2 = VStr (uuid_entity e1) →
  ∃ res1 res2 post,
    response e1 req1 w = Some res1 ∧ statusCode res1 = 201 ∧
    field "id" (body res1) = VStr (uuid_entity e1) ∧
    response e2 req2 (app e1 req1 w).1 = Some res2 ∧ statusCode res2 = 201 ∧
    posts (app e2 req2 (app e1 req1 w).1).1 !! uuid_entity e2 = Some post ∧
    field "userId" post = VStr (uuid_entity e1).
Proof.
  intros Ht1 Hp1 Hu He Ha Ht2 Hp2 Hid.
  destruct (post_users_stored e1 req1 fields1 w Ht1 Hp1 Hu He Ha)
    as (createdAt & _ & _ & _ & Hres1 & Hstored & _).
  destruct (post_posts_stored e2 req2 fields2 (app e1 req1 w).1 (uuid_entity e1)
              Ht2 Hp2 Hid) as (createdAt2 & _ & _ & _ & Hres2 & Hpost & _).
  { by rewrite Hstored. }
  eexists _, _, _. split; [exact Hres1|]. split; [reflexivity|].
  split; [reflexivity|]. split; [exact Hres2|]. split; [reflexivity|].
  split; [exact Hpost|]. reflexivity.
Qed.

Lemma post_for_created_user_witness :
  ∃ post,
    posts (app Sample.later Sample.unknown_user
             (app Sample.env Sample.new_user Sample.world).1).1
      !! uuid_entity Sample.later = Some post ∧
    field "userId" post = VStr (uuid_entity Sample.env).
Proof.
  destruct (post_for_created_user Sample.env Sample.later Sample.new_user
              Sample.unknown_user
              [("username", VStr "test_user"); ("email", VStr "test@example.com");
               ("age", VNum 25)]
              [("userId", VStr "44c4d46f-5a25-438c-853a-0b1f6a1c2d3e");
               ("title", VStr "Test Post"); ("content", VStr "Post content")]
              Sample.world eq_refl eq_refl eq_refl eq_refl eq_refl eq_refl eq_refl
              eq_refl)
    as (_ & _ & post & _ & _ & _ & _ & _ & Hpost & Huser).
  exists post. split; [exact Hpost | exact Huser].
Defined.

Lemma validate_none_iff (username email age : value) :
  validate username email age = None ↔ invalidAge age = None.
Proof. rewrite validate_eq. by destruct (invalidAge age). Qed.

(** [POST /users] with an object body is answered 201 exactly when
    [username] and [email] are truthy and the age check passes, 500 exactly
    when evaluating the age check throws, and 400 otherwise; it is never
    answered anything else. *)
Theorem post_users_status (e : Env) (req : Request) (fields : obj) (w : World) :
  target req = PostUsers →
  payload req = Parsed (VObj fields) →
  ∃ res,
    response e req w = Some res ∧
    (statusCode res = 201 ∨ statusCode res = 400 ∨ statusCode res = 500) ∧
    (statusCode res = 201 ↔
     truthy (prop "username" fields) = true ∧
     truthy (prop "email" fields) = true ∧
     invalidAge (prop "age" fields) = Some false) ∧
    (statusCode res = 500 ↔ invalidAge (prop "age" fields) = None).
Proof.
  intros Ht Hp.
  destruct (validate (prop "username" fields) (prop "email" fields)
              (prop "age" fields)) as [[|m errs]|] eqn:Hv.
  - apply validate_nil_iff in Hv as Hok. destruct Hok as (Hu & He & Ha).
    destruct (post_users_stored e req fields w Ht Hp Hu He Ha)
      as (createdAt & _ & _ & _ & Hres & _).
    eexists. split; [exact Hres|]. simpl. split; [by left|].
    split; [done|]. rewrite Ha. done.
  - destruct (post_users_refused e req fields (m :: errs) w Ht Hp Hv)
      as (_ & _ & _ & Hres & _); [done|].
    eexists. split; [exact Hres|]. simpl. split; [by right; left|].
    split; (split; [done|]).
    + intros Hok. apply validate_nil_iff in Hok. congruence.
    + intros Hn.
      pose proof (proj2 (validate_none_iff (prop "username" fields)
                           (prop "email" fields) _) Hn).
      congruence.
  - destruct (post_users_age_throws e req fields w Ht Hp Hv) as (Hres & _).
    eexists. split; [exact Hres|]. simpl. split; [by right; right|].
    apply validate_none_iff in Hv. rewrite Hv.
    split; split; try done. by intros (_ & _ & ?).
Qed.

Lemma post_users_status_witness :
  ∃ res, response Sample.env Sample.new_user Sample.world = Some res ∧
         statusCode res = 201.
Proof.
  destruct (post_users_status Sample.env Sample.new_user
              [("username", VStr "test_user"); ("email", VStr "test@example.com");
               ("age", VNum 25)] Sample.world eq_refl eq_refl)
    as (res & Hres & _ & Hiff).
  exists res. split; [exact Hres|]. apply Hiff. repeat split.
Defined.

(** *** GET /performance-test/:scenario *)

Lemma route_performance (e : Env) (req : Request) (b : value) (w : World) scenario :
  target req = PerformanceTest scenario →
  route e (loggingMiddleware e req w).1.1 b (loggingMiddleware e req w).2
  = performanceTest e (loggingMiddleware e req w).1.1 scenario
      (loggingMiddleware e req w).2.
Proof. intros Ht. unfold route. by rewrite target_entered, Ht. Qed.

(** The performance test answers 200 for the three scenarios
    [cpu-intensive], [memory-intensive] and [async-operations], with the
    elapsed time between its two clock readings as [duration], the same text
    as in its [PERFORMANCE_TEST_COMPLETED] record; every other scenario is
    answered 500 by the handler's own [catch], which logs
    [PERFORMANCE_TEST_FAILED] at [error] with the message [Invalid scenario];
    neither case reaches the global error handler. *)
Theorem performance_test_outcomes
    (e : Env) (req : Request) (b : value) (w : World) (scenario : string) :
  target req = PerformanceTest scenario →
  payload req = Parsed b →
  ∃ received started ended completed,
    emitted e req w = [received; started; ended; completed] ∧
    is_event "PERFORMANCE_TEST_STARTED" started = true ∧
    is_event "UNHANDLED_ERROR" ended = false ∧
    lookup_prop "duration" ended = Some (ms (now_perf_end e - now_perf_start e)) ∧
    if bool_decide (scenario ∈ ["cpu-intensive"; "memory-intensive"; "async-operations"])
    then
      response e req w
        = Some {| statusCode := 200;
                  body := VObj [("scenario", VStr scenario);
                                ("duration", ms (now_perf_end e - now_perf_start e));
                                ("result", VStr "Success")] |} ∧
      is_event "PERFORMANCE_TEST_COMPLETED" ended = true ∧
      has_level Logger.Info ended = true
    else
      response e req w
        = Some {| statusCode := 500;
                  body := VObj [("error", VStr "Performance test failed")] |} ∧
      is_event "PERFORMANCE_TEST_FAILED" ended = true ∧
      has_level Logger.Error ended = true ∧
      lookup_prop "error" ended = Some (VStr "Invalid scenario").
Proof.
  intros Ht Hp.
  pose proof (route_performance e req b w scenario Ht) as Hr.
  unfold performanceTest, runScenario in Hr.
  destruct (String.eqb scenario "cpu-intensive") eqn:E1;
    [apply String.eqb_eq in E1 as ->|];
    [|destruct (String.eqb scenario "memory-intensive") eqn:E2;
      [apply String.eqb_eq in E2 as ->|]];
    [| |destruct (String.eqb scenario "async-operations") eqn:E3;
        [apply String.eqb_eq in E3 as ->|]].
  4: { apply String.eqb_neq in E1, E2, E3.
       rewrite bool_decide_eq_false_2
         by (rewrite !elem_of_cons, elem_of_nil; intros [?|[?|[?|[]]]]; done).
       unfold response, emitted. rewrite (app_routed e req w _ _ _ Hp Hr).
       eexists _, _, _, _. split.
       { simpl. unfold emitted_so_far.
         exact (drop_four (Logger.otlp (sinks w)) _ _ _ _). }
       repeat split; field_of_record. }
  all: unfold response, emitted; rewrite (app_routed e req w _ _ _ Hp Hr);
    eexists _, _, _, _; (split;
      [simpl; unfold emitted_so_far;
       exact (drop_four (Logger.otlp (sinks w)) _ _ _ _)|]);
    repeat split; field_of_record.
Qed.

Lemma performance_test_outcomes_witness :
  response Sample.env
    (Sample.request "GET" "/performance-test/unknown" (Parsed (VObj []))
       (PerformanceTest "unknown")) Sample.world
  = Some {| statusCode := 500;
            body := VObj [("error", VStr "Performance test failed")] |}.
Proof.
  destruct (performance_test_outcomes Sample.env
              (Sample.request "GET" "/performance-test/unknown" (Parsed (VObj []))
                 (PerformanceTest "unknown")) (VObj []) Sample.world "unknown"
              eq_refl eq_refl)
    as (r0 & r1 & r2 & r3 & _ & _ & _ & _ & Hcase).
  exact (proj1 Hcase).
Defined.

(** *** GET /health *)



(** *** The global error handler *)

(** A request whose body [express.json()] rejects is answered 500 on every
    route, with [error], the request's uuid as [requestId] and the fault's
    message; the [UNHANDLED_ERROR] record, at level [error], carries the same
    [requestId] and message and the fault's stack; the completion record
    shows status 500; neither map changes. *)
Theorem malformed_body_is_answered_500
    (e : Env) (req : Request) (err : Fault) (w : World) :
  payload req = Malformed err →
  uuid_request e ≠ EmptyString →
  ∃ received unhandled completed,
    response e req w
      = Some {| statusCode := 500;
                body := VObj [("error", VStr "Internal Server Error");
                              ("requestId", VStr (uuid_request e));
                              ("message", VStr (message err))] |} ∧
    emitted e req w = [received; unhandled; completed] ∧
    is_event "UNHANDLED_ERROR" unhandled = true ∧
    has_level Logger.Error unhandled = true ∧
    lookup_prop "requestId" unhandled = Some (VStr (uuid_request e)) ∧
    lookup_prop "error" unhandled = Some (VStr (message err)) ∧
    lookup_prop "stack" unhandled = Some (VStr (stack err)) ∧
    lookup_prop "statusCode" completed = Some (VNum 500) ∧
    users (app e req w).1 = users w ∧
    posts (app e req w).1 = posts w.
Proof.
  intros Hp Huuid.
  unfold response, emitted. rewrite (app_malformed e req w err Hp).
  apply String.eqb_neq in Huuid.
  eexists _, _, _.
  split; [simpl; unfold requestId_or_unknown; simpl; by rewrite Huuid|]. split.
  - simpl. unfold emitted_so_far.
    exact (drop_three (Logger.otlp (sinks w)) _ _ _).
  - repeat split; try field_of_record.
    rewrite lookup_record by reflexivity. simpl.
    unfold requestId_or_unknown. simpl. by rewrite Huuid.
Qed.

Lemma malformed_body_is_answered_500_witness :
  response Sample.env Sample.malformed Sample.world
  = Some {| statusCode := 500;
            body := VObj [("error", VStr "Internal Server Error");
                          ("requestId", VStr "57aa3e4a-c516-4a96-aad4-f3e9a080185e");
                          ("message", VStr "Unexpected end of JSON input")] |}.
Proof.
  assert (Huuid : uuid_request Sample.env ≠ EmptyString) by discriminate.
  destruct (malformed_body_is_answered_500 Sample.env Sample.malformed
              (mkFault Sample.env "SyntaxError" "Unexpected end of JSON input")
              Sample.world eq_refl Huuid)
    as (r0 & r1 & r2 & Hres & _).
  exact Hres.
Defined.

(** The error handler answers and logs under one and the same [requestId]:
    the request's own when it has a truthy one, the text [unknown]
    otherwise. *)
Theorem error_handler_requestId (e : Env) (req : Request) (err : Fault) (w : World) :
  ∃ rid logged,
    (globalErrorHandler e req err w).2
      = Responded {| statusCode := 500;
                     body := VObj [("error", VStr "Internal Server Error");
                                   ("requestId", rid);
                                   ("message", VStr (message err))] |} ∧
    Logger.otlp (sinks (globalErrorHandler e req err w).1)
      = Logger.otlp (sinks w) ++ [logged] ∧
    lookup_prop "requestId" logged = Some rid ∧
    (truthy (requestId req) = true → rid = requestId req) ∧
    (truthy (requestId req) = false → rid = VStr "unknown").
Proof.
  exists (requestId_or_unknown req). eexists. split; [reflexivity|]. split.
  - unfold globalErrorHandler. cbv zeta. unfold fst. by rewrite otlp_emit.
  - split; [field_of_record|].
    unfold requestId_or_unknown. split; intros ->; reflexivity.
Qed.

Lemma error_handler_requestId_witness :
  (globalErrorHandler Sample.env Sample.malformed
     (mkFault Sample.env "Error" "boom") Sample.world).2
  = Responded {| statusCode := 500;
                 body := VObj [("error", VStr "Internal Server Error");
                               ("requestId", VStr "unknown");
                               ("message", VStr "boom")] |}.
Proof.
  destruct (error_handler_requestId Sample.env Sample.malformed
              (mkFault Sample.env "Error" "boom") Sample.world)
    as (rid & logged & Hres & _ & _ & _ & Hunknown).
  rewrite (Hunknown eq_refl) in Hres. exact Hres.
Defined.

(** *** Start and shutdown *)

Lemma append_nil_r (s : string) : s +:+ EmptyString = s.
Proof.
  induction s as [|c s IH]; [done|].
  change (String c s +:+ EmptyString) with (String c (s +:+ EmptyString)).
  by rewrite IH.
Qed.

(** Without [PORT] in the environment, or with an empty one, the server
    listens on 5555 and says so in [SERVER_STARTED]; without [NODE_ENV] the
    record says [development]; a value that is set is used and logged as it
    is.  The record has no [requestId]. *)
Theorem server_start_defaults (e : Env) (p : Process) (w : World) :
  ∃ started,
    Logger.otlp (sinks (onListening e p w)) = Logger.otlp (sinks w) ++ [started] ∧
    is_event "SERVER_STARTED" started = true ∧
    lookup_prop "requestId" started = None ∧
    (truthy (env_PORT p) = false →
     listenPort p = Some 5555 ∧ lookup_prop "port" started = Some (VStr "5555")) ∧
    (truthy (env_PORT p) = true → lookup_prop "port" started = Some (env_PORT p)) ∧
    (truthy (env_NODE_ENV p) = false →
     lookup_prop "environment" started = Some (VStr "development")) ∧
    (truthy (env_NODE_ENV p) = true →
     lookup_prop "environment" started = Some (env_NODE_ENV p)).
Proof.
  eexists. split; [unfold onListening; by rewrite otlp_emit|].
  split; [field_of_record|]. split; [field_of_record|].
  rewrite !lookup_record by reflexivity. simpl.
  unfold listenPort, PORT.
  split; [intros ->; split; reflexivity|].
  split; [intros ->; reflexivity|].
  split; intros ->; reflexivity.
Qed.

Lemma server_start_defaults_witness :
  listenPort {| env_PORT := VUndef; env_NODE_ENV := VUndef;
                version := "v20.11.0"; memoryUsage := VObj [] |} = Some 5555 ∧
  listenPort {| env_PORT := VStr EmptyString; env_NODE_ENV := VStr "production";
                version := "v20.11.0"; memoryUsage := VObj [] |} = Some 5555.
Proof.
  split.
  - destruct (server_start_defaults Sample.env
                {| env_PORT := VUndef; env_NODE_ENV := VUndef;
                   version := "v20.11.0"; memoryUsage := VObj [] |} Sample.world)
      as (r & _ & _ & _ & Hport & _).
    exact (proj1 (Hport eq_refl)).
  - destruct (server_start_defaults Sample.env
                {| env_PORT := VStr EmptyString; env_NODE_ENV := VStr "production";
                   version := "v20.11.0"; memoryUsage := VObj [] |} Sample.world)
      as (r & _ & _ & _ & Hport & _).
    exact (proj1 (Hport eq_refl)).
Defined.

(** On [SIGTERM] the process logs [SHUTDOWN_INITIATED] at [warn], then
    [SERVER_STOPPED] at [info], and exits with code 0; neither record has a
    [requestId], each prints as a single console line, and the maps are not
    touched. *)
Theorem shutdown_sequence (e : Env) (w : World) :
  ∃ initiated stopped line1 line2,
    (onSigterm e w).2 = 0 ∧
    Logger.otlp (sinks (onSigterm e w).1) = Logger.otlp (sinks w) ++ [initiated; stopped] ∧
    Logger.stdout (sinks (onSigterm e w).1) = Logger.stdout (sinks w) ++ [line1; line2] ∧
    is_event "SHUTDOWN_INITIATED" initiated = true ∧
    has_level Logger.Warn initiated = true ∧
    is_event "SERVER_STOPPED" stopped = true ∧
    has_level Logger.Info stopped = true ∧
    lookup_prop "requestId" initiated = None ∧
    lookup_prop "requestId" stopped = None ∧
    line1 = Logger.clock (ambient e (emitted_so_far w)) +:+ " ["
              +:+ Logger.paint (ambient e (emitted_so_far w)) "warn"
              +:+ "] SHUTDOWN_INITIATED: 🔄 SIGTERM received. Initiating graceful shutdown" ∧
    line2 = Logger.clock (ambient e (S (emitted_so_far w))) +:+ " ["
              +:+ Logger.paint (ambient e (S (emitted_so_far w))) "info"
              +:+ "] SERVER_STOPPED: 🛑 Server stopped gracefully" ∧
    users (onSigterm e w).1 = users w ∧
    posts (onSigterm e w).1 = posts w.
Proof.
  eexists _, _, _, _. split; [reflexivity|]. split.
  { unfold onSigterm. cbv zeta. unfold fst.
    rewrite !otlp_emit by done. by rewrite <- app_assoc. }
  split.
  { unfold onSigterm. cbv zeta. unfold fst. unfold emit. simpl.
    rewrite <- app_assoc. reflexivity. }
  split; [field_of_record|]. split; [field_of_record|].
  split; [field_of_record|]. split; [field_of_record|].
  split; [field_of_record|]. split; [field_of_record|].
  split.
  { rewrite consoleFormat_record by reflexivity. simpl. reflexivity. }
  split.
  { rewrite consoleFormat_record by reflexivity. simpl.
    unfold emitted_so_far. simpl. rewrite length_app. simpl.
    rewrite Nat.add_1_r. reflexivity. }
  split; reflexivity.
Qed.

(* ===================================================================== *)
(** ** tracing.js: the instrumentation's hook *)
(* ===================================================================== *)

(** The hook always sets [service.name]; with a span it writes the span's
    three trace fields and without one it writes nothing else; run on a
    record that already went through the logger's trace format under the
    same span, it changes nothing but [service.name]. *)
Theorem logHook_and_trace_format
    (a : Logger.Ambient) (span : option Logger.SpanContext) (record : obj) :
  lookup_prop "service.name" (Tracing.logHook span record)
    = Some (VStr "nodejs-signoz-service") ∧
  (∀ ctx, span = Some ctx →
     lookup_prop "trace_id" (Tracing.logHook span record)
       = Some (VStr (Logger.traceId ctx)) ∧
     lookup_prop "span_id" (Tracing.logHook span record)
       = Some (VStr (Logger.spanId ctx)) ∧
     lookup_prop "trace_flags" (Tracing.logHook span record)
       = Some (VStr (toString16 (Logger.traceFlags ctx)))) ∧
  (span = None →
   ∀ k, k ≠ "service.name" →
        lookup_prop k (Tracing.logHook span record) = lookup_prop k record) ∧
  (Logger.active_span a = span →
   ∀ k, k ≠ "service.name" →
        lookup_prop k (Tracing.logHook span (Logger.traceFormat a record))
        = lookup_prop k (Logger.traceFormat a record)).
Proof.
  split; [|split; [|split]].
  - unfold Tracing.logHook. destruct span.
    + rewrite !lookup_set_prop_ne by done. apply lookup_set_prop_eq.
    + apply lookup_set_prop_eq.
  - intros ctx ->. unfold Tracing.logHook. repeat split.
    + rewrite !lookup_set_prop_ne by done. apply lookup_set_prop_eq.
    + rewrite !lookup_set_prop_ne by done. apply lookup_set_prop_eq.
    + apply lookup_set_prop_eq.
  - intros -> k Hk. unfold Tracing.logHook. by rewrite lookup_set_prop_ne.
  - intros Ha k Hk. unfold Tracing.logHook, Logger.traceFormat. rewrite Ha.
    destruct span as [ctx|]; [|by rewrite lookup_set_prop_ne].
    destruct (String.eqb k "trace_flags") eqn:E1.
    { apply String.eqb_eq in E1 as ->. by rewrite !lookup_set_prop_eq. }
    apply String.eqb_neq in E1.
    rewrite (lookup_set_prop_ne k "trace_flags") by done.
    rewrite (lookup_set_prop_ne k "trace_flags") by done.
    destruct (String.eqb k "span_id") eqn:E2.
    { apply String.eqb_eq in E2 as ->. by rewrite !lookup_set_prop_eq. }
    apply String.eqb_neq in E2.
    rewrite (lookup_set_prop_ne k "span_id") by done.
    rewrite (lookup_set_prop_ne k "span_id") by done.
    destruct (String.eqb k "trace_id") eqn:E3.
    { apply String.eqb_eq in E3 as ->. by rewrite !lookup_set_prop_eq. }
    apply String.eqb_neq in E3.
    by rewrite !lookup_set_prop_ne.
Qed.

Lemma logHook_and_trace_format_witness :
  lookup_prop "trace_id" (Tracing.logHook (Some Sample.span) Sample.user_created)
    = Some (VStr "50f527d5ff12b8e0f24756bbf535adf0") ∧
  lookup_prop "trace_id" (Tracing.logHook None Sample.user_created) = None ∧
  lookup_prop "userId"
    (Tracing.logHook (Some Sample.span)
       (Logger.traceFormat Sample.traced Sample.user_created))
    = Some (VStr "44c4d46f-5a25-438c-853a-0b1f6a1c2d3e").
Proof.
  split; [|split].
  - destruct (logHook_and_trace_format Sample.traced (Some Sample.span)
                Sample.user_created) as (_ & Hspan & _).
    exact (proj1 (Hspan Sample.span eq_refl)).
  - destruct (logHook_and_trace_format Sample.untraced None Sample.user_created)
      as (_ & _ & Hnone & _).
    refine (Hnone eq_refl "trace_id" _). discriminate.
  - destruct (logHook_and_trace_format Sample.traced (Some Sample.span)
                Sample.user_created) as (_ & _ & _ & Hsame).
    refine (Hsame eq_refl "userId" _). discriminate.
Defined.

(* ===================================================================== *)
(** ** Numerals in text *)
(* ===================================================================== *)

Section Numerals.

Lemma codes_cons (c : ascii) (s : string) :
  codes (String c s) = N_of_ascii c :: codes s.
Proof. reflexivity. Qed.

Lemma take_digits_digit (c v acc : N) (l : list N) :
  digit_value 10 c = Some v →
  take_digits 10 acc (c :: l)
  = (S (take_digits 10 (acc * 10 + v) l).1.1,
     (take_digits 10 (acc * 10 + v) l).1.2,
     (take_digits 10 (acc * 10 + v) l).2).
Proof.
  intros H. cbn [take_digits]. rewrite H.
  by destruct (take_digits 10 (acc * 10 + v) l) as [[k n] rest].
Qed.

(** The digits of a decimal numeral are all consumed, and spell zero exactly
    when they are all zeros. *)
Lemma take_digits_uint (d : Decimal.uint) (acc : N) :
  ∃ k n,
    take_digits 10 acc (codes (DecimalString.NilEmpty.string_of_uint d)) = (k, n, []) ∧
    (d ≠ Decimal.Nil → k ≠ O) ∧
    (n = 0%N ↔ acc = 0%N ∧ Decimal.nzhead d = Decimal.Nil).
Proof.
  revert acc. induction d as [|d IH|d IH|d IH|d IH|d IH|d IH|d IH|d IH|d IH|d IH];
    intros acc.
  1: { exists O, acc. repeat split; try done. by intros [? _]. }
  1: { destruct (IH (acc * 10 + 0)%N) as (k & n & Hk & _ & Hn).
       exists (S k), n. cbn [DecimalString.NilEmpty.string_of_uint].
       rewrite codes_cons, (take_digits_digit _ 0%N) by reflexivity.
       rewrite Hk. split; [reflexivity|]. split; [done|]. split.
       - intros Hz. apply Hn in Hz as [? ?]. split; [lia|done].
       - intros [-> Hz]. apply Hn. done. }
  all: cbn [DecimalString.NilEmpty.string_of_uint]; rewrite codes_cons;
    match goal with
    | |- context [take_digits 10 ?a (N_of_ascii ?c :: _)] =>
        let v := eval vm_compute in (N_of_ascii c - 48)%N in
        destruct (IH (a * 10 + v)%N) as (k & n & Hk & _ & Hn);
        rewrite (take_digits_digit _ v) by reflexivity;
        rewrite Hk; exists (S k), n;
        (split; [reflexivity|]); (split; [done|]);
        (split; [|by intros [_ ?]]); intros Hz; apply Hn in Hz as [? _]; lia
    end.
Qed.

Lemma skip_ws_uint (d : Decimal.uint) :
  skip_ws (codes (DecimalString.NilEmpty.string_of_uint d))
  = codes (DecimalString.NilEmpty.string_of_uint d).
Proof. destruct d; reflexivity. Qed.

Lemma codes_uint_nonempty (d : Decimal.uint) :
  d ≠ Decimal.Nil → codes (DecimalString.NilEmpty.string_of_uint d) ≠ [].
Proof. destruct d; done. Qed.

Lemma numeric_literal_uint (d : Decimal.uint) :
  d ≠ Decimal.Nil →
  numeric_literal (codes (DecimalString.NilEmpty.string_of_uint d))
  = unsigned_decimal (codes (DecimalString.NilEmpty.string_of_uint d)).
Proof.
  intros Hd. destruct d as [|d|d|d|d|d|d|d|d|d|d]; [done| |reflexivity..].
  destruct d; reflexivity.
Qed.

Lemma unsigned_decimal_uint (d : Decimal.uint) :
  d ≠ Decimal.Nil →
  unsigned_decimal (codes (DecimalString.NilEmpty.string_of_uint d))
  = Some (match Decimal.nzhead d with Decimal.Nil => SZero | _ => SPos end, []).
Proof.
  intros Hd. destruct (take_digits_uint d 0) as (k & n & Hk & Hk0 & Hn).
  unfold unsigned_decimal.
  assert (strip_prefix (codes "Infinity")
            (codes (DecimalString.NilEmpty.string_of_uint d)) = None) as ->
    by (destruct d; reflexivity).
  rewrite Hk. destruct k as [|k]; [by apply Hk0 in Hd|].
  cbn [take_exponent]. unfold magnitude, underflows.
  destruct (N.eqb_spec n 0) as [Hz|Hz].
  - apply Hn in Hz as [_ ->]. reflexivity.
  - simpl. destruct (Decimal.nzhead d); try reflexivity.
    exfalso. apply Hz, Hn. done.
Qed.

Lemma StringToNumber_of_literal (s : string) (c : numsign) :
  skip_ws (codes s) = codes s →
  codes s ≠ [] →
  numeric_literal (codes s) = Some (c, []) →
  StringToNumber s = c.
Proof.
  intros Hs Hne Hlit. unfold StringToNumber. rewrite Hs.
  destruct (codes s); [done|]. by rewrite Hlit.
Qed.

Lemma nzhead_to_uint (p : positive) : Decimal.nzhead (Pos.to_uint p) ≠ Decimal.Nil.
Proof.
  intros H.
  pose proof (DecimalPos.Unsigned.to_of (Pos.to_uint p)) as Hto.
  rewrite DecimalPos.Unsigned.of_to in Hto. simpl in Hto.
  unfold Decimal.unorm in Hto. rewrite H in Hto.
  by apply (DecimalPos.Unsigned.to_uint_nonzero p).
Qed.

End Numerals.

(** A whole number written out in decimal counts as that number: the
    coercion to a number gives the same sign for the text as for the number
    itself, so the age check of [POST /users] never takes such a text for
    not-a-number, and reports ["Invalid age"] for it exactly when the number
    is negative. *)
Theorem numerals_count_as_numbers (n : Z) (username email : value) :
  ToNumber (VStr (number_to_string n)) = ToNumber (VNum n) ∧
  isNaN (VStr (number_to_string n)) = Some false ∧
  ∃ errors,
    validate username email (VStr (number_to_string n)) = Some errors ∧
    ("Invalid age" ∈ errors ↔ n < 0).
Proof.
  assert (Hsign : ToNumber (VStr (number_to_string n)) = ToNumber (VNum n)).
  { destruct n as [|p|p]; [reflexivity| |].
    - unfold number_to_string. simpl Z.to_int.
      unfold DecimalString.NilZero.string_of_int, DecimalString.NilZero.string_of_uint.
      pose proof (nzhead_to_uint p) as Hnz.
      pose proof (DecimalPos.Unsigned.to_uint_nonnil p) as Hnil.
      assert (DecimalString.NilEmpty.string_of_uint (Pos.to_uint p)
              = match Pos.to_uint p with
                | Decimal.Nil => "0"
                | _ => DecimalString.NilEmpty.string_of_uint (Pos.to_uint p)
                end) as <- by (by destruct (Pos.to_uint p)).
      simpl ToNumber. f_equal.
      apply StringToNumber_of_literal;
        [apply skip_ws_uint | by apply codes_uint_nonempty|].
      rewrite numeric_literal_uint, unsigned_decimal_uint by done.
      by destruct (Decimal.nzhead (Pos.to_uint p)).
    - unfold number_to_string. simpl Z.to_int.
      unfold DecimalString.NilZero.string_of_int, DecimalString.NilZero.string_of_uint.
      pose proof (nzhead_to_uint p) as Hnz.
      pose proof (DecimalPos.Unsigned.to_uint_nonnil p) as Hnil.
      assert (DecimalString.NilEmpty.string_of_uint (Pos.to_uint p)
              = match Pos.to_uint p with
                | Decimal.Nil => "0"
                | _ => DecimalString.NilEmpty.string_of_uint (Pos.to_uint p)
                end) as <- by (by destruct (Pos.to_uint p)).
      simpl ToNumber. f_equal.
      apply StringToNumber_of_literal; [reflexivity | done |].
      rewrite codes_cons.
      change (numeric_literal (N_of_ascii "-" :: ?l))
        with (match unsigned_decimal l with
              | Some (SPos, rest) => Some (SNeg, rest)
              | other => other
              end).
      rewrite unsigned_decimal_uint by done.
      by destruct (Decimal.nzhead (Pos.to_uint p)). }
  split; [exact Hsign|].
  assert (Hnan : isNaN (VStr (number_to_string n)) = Some false).
  { unfold isNaN. rewrite Hsign. simpl. by destruct (n <? 0), (n =? 0). }
  split; [exact Hnan|].
  assert (Htruthy : truthy (VStr (number_to_string n)) = true).
  { destruct n as [|p|p]; [reflexivity| |]; simpl; unfold number_to_string; simpl;
      unfold DecimalString.NilZero.string_of_uint;
      pose proof (DecimalPos.Unsigned.to_uint_nonnil p);
      by destruct (Pos.to_uint p). }
  assert (Hage : invalidAge (VStr (number_to_string n)) = Some (n <? 0)).
  { unfold invalidAge. rewrite Htruthy, Hnan. unfold ltZero. rewrite Hsign.
    simpl. by destruct (n <? 0), (n =? 0). }
  rewrite validate_eq, Hage. eexists. split; [reflexivity|].
  rewrite !elem_of_app.
  destruct (Z.ltb_spec n 0) as [Hlt|Hge].
  - split; [done|]. intros _. right. right. apply list_elem_of_here.
  - split; [|lia]. intros [Hin|[Hin|Hin]].
    + destruct (truthy username); [by apply elem_of_nil in Hin|].
      apply list_elem_of_singleton in Hin. discriminate.
    + destruct (truthy email); [by apply elem_of_nil in Hin|].
      apply list_elem_of_singleton in Hin. discriminate.
    + by apply elem_of_nil in Hin.
Qed.

Section NumeralValue.





End NumeralValue.



(* ===================================================================== *)
(** ** Trace fields, record by record *)
(* ===================================================================== *)

Section Journal.
Variable e : Env.

Lemma recorded_nil (w : World) : Logger.otlp (sinks w) = recorded e w [].
Proof. unfold recorded. simpl. by rewrite app_nil_r. Qed.

Lemma recorded_emit (w w' : World) calls (l : Logger.level) (msg : obj) :
  Logger.enabled l = true →
  Logger.otlp (sinks w') = recorded e w calls →
  Logger.otlp (sinks (emit e l msg w')) = recorded e w (calls ++ [(l, msg)]).
Proof.
  intros Hl Hw'. rewrite otlp_emit by done. unfold recorded in *.
  rewrite imap_app, app_assoc, <- Hw'. simpl. do 3 f_equal.
  unfold emitted_so_far at 1. rewrite Hw', length_app, length_imap.
  unfold emitted_so_far. f_equal. lia.
Qed.

Lemma recorded_same_sinks (w w' w'' : World) calls :
  sinks w'' = sinks w' →
  Logger.otlp (sinks w') = recorded e w calls →
  Logger.otlp (sinks w'') = recorded e w calls.
Proof. by intros ->. Qed.

Lemma recorded_trans (w w' w'' : World) calls calls' :
  Logger.otlp (sinks w') = recorded e w calls →
  Logger.otlp (sinks w'') = recorded e w' calls' →
  Logger.otlp (sinks w'') = recorded e w (calls ++ calls').
Proof.
  intros H1 H2. rewrite H2. unfold recorded in *.
  rewrite H1, imap_app, <- app_assoc. do 2 f_equal.
  apply imap_ext. intros i call _. simpl. do 2 f_equal.
  unfold emitted_so_far at 1. rewrite H1, length_app, length_imap.
  unfold emitted_so_far. lia.
Qed.

End Journal.

Ltac journal :=
  repeat first
    [ apply recorded_nil
    | apply recorded_emit; [reflexivity|]
    | progress (cbn [sinks]) ].

Ltac quiet_calls :=
  simpl; repeat constructor.

(** No call site of the routes uses a trace field name or an empty
    message. *)
Lemma route_calls (e : Env) (req : Request) (b : value) (w : World) :
  ∃ calls,
    Logger.otlp (sinks (route e req b w).1) = recorded e w calls ∧
    Forall (λ call, truthy (prop "message" call.2) = true ∧
                    lookup_prop "trace_id" call.2 = None ∧
                    lookup_prop "span_id" call.2 = None ∧
                    lookup_prop "trace_flags" call.2 = None) calls.
Proof.
  unfold route. destruct (target req) as [| |scenario|type|].
  - unfold postUsers. destruct (destructure e "username" b).
    + eexists. split; [cbv zeta; unfold fst; journal|quiet_calls].
    + destruct (validate _ _ _) as [found|].
      * destruct (0 <? _).
        -- eexists. split; [cbv zeta; unfold fst; journal|quiet_calls].
        -- eexists. split; [cbv zeta; unfold fst; journal|quiet_calls].
      * eexists. split; [cbv zeta; unfold fst; journal|quiet_calls].
  - unfold postPosts. destruct (destructure e "userId" b).
    + eexists. split; [cbv zeta; unfold fst; journal|quiet_calls].
    + destruct (negb _).
      * eexists. split; [cbv zeta; unfold fst; journal|quiet_calls].
      * eexists. split; [cbv zeta; unfold fst; journal|quiet_calls].
  - unfold performanceTest. destruct (runScenario e scenario).
    + eexists. split; [cbv zeta; unfold fst; journal|quiet_calls].
    + eexists. split; [cbv zeta; unfold fst; journal|quiet_calls].
  - unfold simulateError. destruct (simulate e type).
    + eexists. split; [cbv zeta; unfold fst; journal|quiet_calls].
    + eexists. split; [cbv zeta; unfold fst; journal|quiet_calls].
  - unfold healthCheck.
    eexists. split; [cbv zeta; unfold fst; journal|quiet_calls].
Qed.


Lemma app_calls (e : Env) (req : Request) (w : World) :
  ∃ calls,
    Logger.otlp (sinks (app e req w).1) = recorded e w calls ∧
    Forall (λ call, truthy (prop "message" call.2) = true ∧
                    lookup_prop "trace_id" call.2 = None ∧
                    lookup_prop "span_id" call.2 = None ∧
                    lookup_prop "trace_flags" call.2 = None) calls.
Proof.
  destruct (payload req) as [b|err] eqn:Hp.
  - destruct (route_responds e (loggingMiddleware e req w).1.1 b
                (loggingMiddleware e req w).2) as (w' & res & recs & Hr & _).
    destruct (route_calls e (loggingMiddleware e req w).1.1 b
                (loggingMiddleware e req w).2) as (calls & Hc & Hok).
    rewrite (app_routed e req w b w' res Hp Hr).
    rewrite Hr in Hc. cbn [fst] in Hc.
    eexists. split.
    + cbn [fst]. unfold onFinish. apply recorded_emit; [reflexivity|].
      eapply recorded_trans; [|exact Hc].
      unfold loggingMiddleware. cbv zeta. cbn [snd]. journal.
    + apply Forall_app. split; [|quiet_calls].
      apply Forall_app. split; [quiet_calls|exact Hok].
  - rewrite (app_malformed e req w err Hp).
    eexists. split.
    + cbv zeta. cbn [fst]. unfold onFinish, globalErrorHandler, loggingMiddleware.
      cbv zeta. cbn [fst snd]. journal.
    + quiet_calls.
Qed.

(** Every record of a request carries the identifiers of the span that was
    active when that very record was emitted (they are looked up again at
    each emission, not kept from the start of the request), and no trace
    field at all when no span was active then. *)
Theorem records_follow_the_active_span
    (e : Env) (req : Request) (w : World) (i : nat) (r : obj) :
  emitted e req w !! i = Some r →
  match Logger.active_span (ambient e (emitted_so_far w + i)) with
  | Some ctx =>
      lookup_prop "trace_id" r = Some (VStr (Logger.traceId ctx)) ∧
      lookup_prop "span_id" r = Some (VStr (Logger.spanId ctx)) ∧
      lookup_prop "trace_flags" r = Some (VStr (toString16 (Logger.traceFlags ctx)))
  | None =>
      lookup_prop "trace_id" r = None ∧
      lookup_prop "span_id" r = None ∧
      lookup_prop "trace_flags" r = None
  end.
Proof.
  destruct (app_calls e req w) as (calls & Hc & Hok).
  unfold emitted. rewrite Hc. unfold recorded, emitted_so_far at 1.
  rewrite drop_app_length, list_lookup_imap.
  destruct (calls !! i) as [[l msg]|] eqn:Hcall; [|done].
  simpl. intros [= <-].
  rewrite Forall_forall in Hok.
  destruct (Hok (l, msg)) as (Hm & H1 & H2 & H3).
  { by eapply list_elem_of_lookup_2. }
  simpl in *.
  destruct (Logger.active_span (ambient e (emitted_so_far w + i))) as [ctx|] eqn:Hspan.
  - by apply lookup_record_span.
  - repeat split; apply lookup_record_no_span; try done.
    + apply list_elem_of_here.
    + apply list_elem_of_further, list_elem_of_here.
    + do 2 apply list_elem_of_further. apply list_elem_of_here.
Qed.

Lemma records_follow_the_active_span_witness :
  lookup_prop "trace_id"
    (Logger.record Sample.traced Logger.Info
       [("event", VStr "REQUEST_COMPLETED");
        ("message", VStr "✅ Request processed");
        ("method", VStr "GET");
        ("path", VStr "/simulate-error/custom");
        ("requestId", VStr (uuid_request Sample.env));
        ("statusCode", VNum 500);
        ("duration", VStr "3ms");
        ("timestamp", VStr "2025-02-17T19:04:35.287Z")])
  = Some (VStr "50f527d5ff12b8e0f24756bbf535adf0").
Proof.
  exact (proj1 (records_follow_the_active_span Sample.env Sample.custom Sample.world
                  3 _ eq_refl)).
Defined.
